(** * GeoTag Pro ([geo_app.py]): sampling, longitude normalisation,
      cyclic city assignment and GPS reference letters.

    A finite Python [float] is embedded as the real number it denotes.

    The longitude normalisation of line 130 is embedded with its
    round-off: [+] and [-] return the rounding of the exact result, for a
    rounding function [rnd] of which only what binary64 round-to-nearest
    guarantees is used ([rounding]); module [Binary64] gives the same line
    on primitive binary64 floats, where it runs.

    The sampler of lines 19-32 is embedded in exact real arithmetic:
    [math.sqrt], [math.cos], [math.sin], [math.pi] are the real functions
    and the real constant.  What is proved of it describes the formula the
    code evaluates, not the last digits of the doubles it returns; on
    doubles [math.cos (math.radians (90.0))] is about 6.1e-17, not zero.

    Operations that can raise in Python ([/] and [%] by zero, [math.sqrt]
    of a negative number, list indexing out of range) return an explicit
    error. *)

From Stdlib Require Import Reals Lra Lia List String Arith ZArith Bool.
From Stdlib Require Import Zfloor Ascii.
From Stdlib Require Floats Uint63.
Import ListNotations.

Open Scope R_scope.

(** ** Errors and the two small monads the script is written in *)

Inductive exn : Type :=
| ZeroDivisionError
| ValueError
| IndexError.

Inductive result (A : Type) : Type :=
| Ok (a : A)
| Raise (e : exn).

Arguments Ok {A} a.
Arguments Raise {A} e.

Definition rbind {A B : Type} (c : result A) (k : A -> result B) : result B :=
  match c with
  | Ok a => k a
  | Raise e => Raise e
  end.

(** Code that draws from [random]: the state is the number of values the
    generator has handed out so far. *)
Definition M (A : Type) : Type := nat -> result (A * nat).

Definition ret {A : Type} (a : A) : M A := fun k => Ok (a, k).

Definition bind {A B : Type} (c : M A) (f : A -> M B) : M B :=
  fun k =>
    match c k with
    | Ok (a, k') => f a k'
    | Raise e => Raise e
    end.

Notation "x <- c ;; f" := (bind c (fun x => f))
  (at level 61, c at next level, right associativity).

(** ** Python float operators *)

(** [x / y] on floats. *)
Definition truediv (x y : R) : result R :=
  if Req_EM_T y 0 then Raise ZeroDivisionError else Ok (x / y).

(** What is used of the rounding of binary64 results (to nearest, ties to
    even): it keeps the order, and an integer of magnitude at most [2^53]
    is a double, so it is its own rounding. *)
Record rounding (rnd : R -> R) : Prop := mkRounding {
  rnd_mono : forall x y, x <= y -> rnd x <= rnd y;
  rnd_int : forall z : Z, (Z.abs z <= 2 ^ 53)%Z -> rnd (IZR z) = IZR z
}.

(** The integer part of [x], towards zero. *)
Definition Ztrunc (x : R) : Z :=
  if Rle_dec 0 x then Zfloor x else Zceil x.

(** C's [fmod]: [x - n * y] for [n] the quotient truncated towards zero.
    It is exact: the result is a double whenever [x] and [y] are. *)
Definition c_fmod (x y : R) : R := x - IZR (Ztrunc (x / y)) * y.

(** [x % y] on floats, as CPython's [float_rem] computes it: [fmod], then
    [mod += y] (a rounded addition) when the remainder is not zero and its
    sign is not the divisor's. *)
Definition float_mod (rnd : R -> R) (x y : R) : result R :=
  if Req_EM_T y 0 then Raise ZeroDivisionError
  else
    let m := c_fmod x y in
    if Req_EM_T m 0 then Ok 0
    else if Bool.eqb (if Rlt_dec y 0 then true else false)
                     (if Rlt_dec m 0 then true else false)
         then Ok m
         else Ok (rnd (m + y)).

(** [math.sqrt]. *)
Definition math_sqrt (x : R) : result R :=
  if Rlt_dec x 0 then Raise ValueError else Ok (sqrt x).

(** [math.radians]. *)
Definition math_radians (x : R) : R := x * (PI / 180).

Definition lift {A : Type} (c : result A) : M A :=
  fun k =>
    match c with
    | Ok a => Ok (a, k)
    | Raise e => Raise e
    end.

(** ** Helper functions of the script *)

Definition Coordinate : Type := (R * R)%type.

Section Sampler.

(** [rand k] is the value of the [k]-th call of [random.random ()]. *)
Variable rand : nat -> R.

Definition random : M R := fun k => Ok (rand k, S k).

Definition get_random_point_in_radius (lat lon radius_km : R) : M Coordinate :=
  if Rle_dec radius_km 0 then ret (lat, lon)
  else
    let radius_earth_km := 6371 in
    r <- lift (truediv radius_km radius_earth_km) ;;
    u <- random ;;
    v <- random ;;
    su <- lift (math_sqrt u) ;;
    let w := r * su in
    let t := 2 * PI * v in
    let x := w * cos t in
    let y := w * sin t in
    xp <- lift (truediv x PI) ;;
    let new_lat := xp * 180 + lat in
    yp <- lift (truediv y PI) ;;
    yc <- lift (truediv (yp * 180) (cos (math_radians lat))) ;;
    let new_lon := yc + lon in
    ret (new_lat, new_lon).

End Sampler.

(** The closed form of the specification, with the two draws as inputs. *)
Definition spec_sample (lat lon radius_km u v : R) : Coordinate :=
  let r := radius_km / 6371 in
  let w := r * sqrt u in
  let t := 2 * PI * v in
  let x := w * cos t in
  let y := w * sin t in
  (lat + x * 180 / PI, lon + y * 180 / (PI * cos (lat * PI / 180))).

(** The sample for file [i] of a batch that starts at draw [k]: draws
    [k + 2i] and [k + 2i + 1]. *)
Definition nth_sample (rand : nat -> R) (lat lon radius : R) (k i : nat)
  : Coordinate :=
  spec_sample lat lon radius (rand (k + 2 * i)%nat) (rand (k + 2 * i + 1)%nat).

(** Line 130: [clicked_lon = ((raw_lon + 180) % 360) - 180]. *)
Definition normalize_lon (rnd : R -> R) (raw_lon : R) : result R :=
  rbind (float_mod rnd (rnd (raw_lon + 180)) 360)
    (fun m => Ok (rnd (m - 180))).

(** Lines 123-130: the centre of pin mode.  [last_clicked] is
    [map_data.get ("last_clicked")] with its [lat] and [lng]; without a
    click the start location is used as it is. *)
Definition clicked (rnd : R -> R) (start : Coordinate)
    (last_clicked : option Coordinate) : result Coordinate :=
  match last_clicked with
  | Some (lat, raw_lon) =>
      rbind (normalize_lon rnd raw_lon)
        (fun clicked_lon => Ok (lat, clicked_lon))
  | None => Ok start
  end.

(** Line 130 on primitive binary64 floats. *)
Module Binary64.

Import PrimFloat FloatOps SpecFloat.

(** The double of an integer (exact below [2^53]). *)
Definition of_Z (z : Z) : float :=
  match z with
  | Z0 => zero
  | Zpos _ => of_uint63 (Uint63.of_Z z)
  | Zneg p => opp (of_uint63 (Uint63.of_Z (Zpos p)))
  end.

(** C's [fmod] on finite doubles: both magnitudes are written over the
    smaller of the two exponents and the integer remainder, which is below
    [2^53], is scaled back; the sign is that of [x]. *)
Definition c_fmod (x y : float) : float :=
  match Prim2SF x, Prim2SF y with
  | S754_finite sx mx ex, S754_finite _ my ey =>
      let e := Z.min ex ey in
      let a := (Zpos mx * 2 ^ (ex - e))%Z in
      let b := (Zpos my * 2 ^ (ey - e))%Z in
      let r := Z.ldexp (of_uint63 (Uint63.of_Z (a mod b))) e in
      if sx then opp r else r
  | S754_zero _, S754_finite _ _ _ => x
  | S754_finite _ _ _, S754_infinity _ => x
  | _, _ => nan
  end.

(** CPython's [float_rem]. *)
Definition float_mod (x y : float) : result float :=
  if eqb y zero then Raise ZeroDivisionError
  else
    let m := c_fmod x y in
    if eqb m zero then Ok (if get_sign y then neg_zero else zero)
    else if Bool.eqb (ltb y zero) (ltb m zero) then Ok m
         else Ok (add m y).

(** Line 130. *)
Definition normalize_lon (raw_lon : float) : result float :=
  rbind (float_mod (add raw_lon (of_Z 180)) (of_Z 360))
    (fun m => Ok (sub m (of_Z 180))).

End Binary64.

Record UploadedFile : Type := mkFile {
  name : string;
  getbuffer : list Byte.byte
}.

Definition MAX_FILES : nat := 25.

Inductive message : Type :=
| st_warning (s : string)
| st_error (s : string)
| st_success (s : string).

Definition is_empty {A : Type} (l : list A) : bool :=
  match l with
  | [] => true
  | _ :: _ => false
  end.

(** *** Pin on Map (lines 140-142) *)

Section PinMode.

Variable rand : nat -> R.

Fixpoint pin_loop (files : list UploadedFile) (clicked_lat clicked_lon radius : R)
    (final_targets : list Coordinate) : M (list Coordinate) :=
  match files with
  | [] => ret final_targets
  | _ :: rest =>
      p <- get_random_point_in_radius rand clicked_lat clicked_lon radius ;;
      pin_loop rest clicked_lat clicked_lon radius (final_targets ++ [p])
  end.

Definition pin_mode (rnd : R -> R) (start : Coordinate)
    (last_clicked : option Coordinate)
    (radius : R) (uploaded_files : list UploadedFile) : M (list Coordinate) :=
  c <- lift (clicked rnd start last_clicked) ;;
  pin_loop uploaded_files (fst c) (snd c) radius [].

End PinMode.

(** *** List of Cities (lines 147-188) *)

(** A Python [dict] from city name to [latlng], in insertion order. *)
Definition dict : Type := list (string * Coordinate).

Fixpoint dict_get (d : dict) (k : string) : option Coordinate :=
  match d with
  | [] => None
  | (k', v) :: rest => if string_dec k' k then Some v else dict_get rest k
  end.

(** [d[k] = v]: an existing key keeps its place, a new key goes last. *)
Fixpoint dict_set (d : dict) (k : string) (v : Coordinate) : dict :=
  match d with
  | [] => [(k, v)]
  | (k', v') :: rest =>
      if string_dec k' k then (k', v) :: rest else (k', v') :: dict_set rest k v
  end.

Definition dict_keys (d : dict) : list string := map fst d.

Definition dict_values (d : dict) : list Coordinate := map snd d.

Section CityMode.

(** [arcgis city] is [Some g.latlng] when [geocoder.arcgis (city)] gives
    [g.ok], and [None] when it does not or when the call raises. *)
Variable arcgis : string -> option Coordinate.

(** [set_list l] is [list (set (l))]: the order is Python's. *)
Variable set_list : list string -> list string.

(** Lines 161-170. *)
Fixpoint lookup_cities (unique_cities : list string) (unique_coords : dict)
    (failed_cities : list string) : dict * list string :=
  match unique_cities with
  | [] => (unique_coords, failed_cities)
  | city :: rest =>
      match arcgis city with
      | Some latlng =>
          lookup_cities rest (dict_set unique_coords city latlng) failed_cities
      | None => lookup_cities rest unique_coords (failed_cities ++ [city])
      end
  end.

(** [unique_coords] after the lookups of lines 159-170. *)
Definition coords_of (city_names : list string) : dict :=
  fst (lookup_cities (set_list city_names) [] []).

(** Lines 184-188 for one index [i]: the coordinate to append, if any. *)
Definition city_target (city_names : list string) (unique_coords : dict)
    (i : nat) : result (option Coordinate) :=
  match List.length city_names with
  | O => Raise ZeroDivisionError
  | S _ =>
      match nth_error city_names (i mod List.length city_names) with
      | None => Raise IndexError
      | Some city =>
          match dict_get unique_coords city with
          | Some latlng => Ok (Some latlng)
          | None =>
              if (0 <? List.length unique_coords)%nat then
                match dict_values unique_coords with
                | first :: _ => Ok (Some first)
                | [] => Raise IndexError
                end
              else Ok None
          end
      end
  end.

(** Line 183: [for i in range (len (uploaded_files))]. *)
Fixpoint city_loop (indices : list nat) (city_names : list string)
    (unique_coords : dict) (final_targets : list Coordinate)
    : result (list Coordinate) :=
  match indices with
  | [] => Ok final_targets
  | i :: rest =>
      rbind (city_target city_names unique_coords i) (fun t =>
        city_loop rest city_names unique_coords
          match t with
          | Some latlng => final_targets ++ [latlng]
          | None => final_targets
          end)
  end.

Definition no_cities_msg : string := "Please enter at least one city.".

Definition not_found_msg : string :=
  "Could not find coordinates. Please check your internet connection.".

(** [city_names] is the list of line 150, after splitting and stripping. *)
Definition city_mode (city_names : list string)
    (uploaded_files : list UploadedFile)
    : result (list Coordinate * list message) :=
  if is_empty uploaded_files then Ok ([], [])
  else if is_empty city_names then Ok ([], [st_warning no_cities_msg])
  else
    let unique_cities := set_list city_names in
    let (unique_coords, failed_cities) := lookup_cities unique_cities [] [] in
    let warn :=
      if is_empty failed_cities then []
      else [st_warning ("Could not find: " ++ String.concat ", " failed_cities)] in
    if is_empty unique_coords then Ok ([], warn ++ [st_error not_found_msg])
    else
      let ready :=
        st_success ("Ready to tag locations: "
                    ++ String.concat ", " (dict_keys unique_coords)) in
      rbind (city_loop (seq 0 (List.length uploaded_files)) city_names unique_coords [])
        (fun final_targets => Ok (final_targets, warn ++ [ready])).

End CityMode.

(** Line 190: [if uploaded_files and final_targets]. *)
Definition tagging_offered (uploaded_files : list UploadedFile)
    (final_targets : list Coordinate) : bool :=
  negb (is_empty uploaded_files) && negb (is_empty final_targets).

(** *** process_images (lines 58-78) *)

Record GPSTags : Type := mkTags {
  GPSLatitude : R;
  GPSLatitudeRef : string;
  GPSLongitude : R;
  GPSLongitudeRef : string
}.

Definition gps_tags (target : Coordinate) : GPSTags :=
  let (lat, lon) := target in
  let lat_ref := if Rge_dec lat 0 then "N"%string else "S"%string in
  let lon_ref := if Rge_dec lon 0 then "E"%string else "W"%string in
  {| GPSLatitude := Rabs lat;
     GPSLatitudeRef := lat_ref;
     GPSLongitude := Rabs lon;
     GPSLongitudeRef := lon_ref |}.

Section ProcessImages.

(** [set_tags path tags] is [true] when [et.set_tags] returns and [false]
    when it raises. *)
Variable set_tags : string -> GPSTags -> bool.

Variable temp_dir : string.

Definition file_path (f : UploadedFile) : string :=
  (temp_dir ++ "/" ++ name f)%string.

(** The loop of lines 59-78 over [file_map.items ()]: the [set_tags]
    calls made, in order, and [processed_paths]. *)
Fixpoint tag_loop (file_map : list (nat * string)) (targets : list Coordinate)
    (calls : list (string * GPSTags)) (processed_paths : list string)
    : result (list (string * GPSTags) * list string) :=
  match file_map with
  | [] => Ok (calls, processed_paths)
  | (i, path) :: rest =>
      match nth_error targets i with
      | None => Raise IndexError
      | Some target =>
          let tags := gps_tags target in
          tag_loop rest targets (calls ++ [(path, tags)])
            (if set_tags path tags then processed_paths ++ [path]
             else processed_paths)
      end
  end.

Definition process_images (files : list UploadedFile) (targets : list Coordinate)
    : result (list (string * GPSTags) * list string) :=
  let file_map := combine (seq 0 (List.length files)) (map file_path files) in
  tag_loop file_map targets [] [].

End ProcessImages.

(** The calls made for a file map, when every index has a target. *)
Definition calls_of (file_map : list (nat * string)) (targets : list Coordinate)
  : list (string * GPSTags) :=
  map (fun e => (snd e, gps_tags (nth (fst e) targets (0, 0)))) file_map.

(** *** The page (lines 99-107 and 190) *)

Inductive Mode : Type :=
| PinOnMap
| ListOfCities.

Record Page : Type := mkPage {
  final_targets : list Coordinate;
  messages : list message;
  tag_button : bool
}.

Definition too_many_msg : string := "Please select only 25 files maximum.".

(** One run of the script.  [st.stop ()] of line 103 ends the run with
    nothing computed; the button of line 191 is there when [tag_button]. *)
Definition script (rand : nat -> R) (rnd : R -> R)
    (arcgis : string -> option Coordinate)
    (set_list : list string -> list string)
    (uploaded_files : list UploadedFile) (mode : Mode)
    (start : Coordinate) (last_clicked : option Coordinate) (radius : R)
    (city_names : list string) : M Page :=
  if negb (is_empty uploaded_files)
     && (MAX_FILES <? List.length uploaded_files)%nat
  then ret (mkPage [] [st_error too_many_msg] false)
  else
    match mode with
    | PinOnMap =>
        targets <- pin_mode rand rnd start last_clicked radius uploaded_files ;;
        ret (mkPage targets [] (tagging_offered uploaded_files targets))
    | ListOfCities =>
        r <- lift (city_mode arcgis set_list city_names uploaded_files) ;;
        ret (mkPage (fst r) (snd r) (tagging_offered uploaded_files (fst r)))
    end.

(** Whether the lookup of a name succeeded ([g.ok], line 165). *)
Definition resolved (arcgis : string -> option Coordinate) (city : string)
  : bool :=
  match arcgis city with
  | Some _ => true
  | None => false
  end.

(** Lines 35-44.  [ip_me] is the outcome of [geocoder.ip ('me')]: [None]
    when the call raises, [Some None] when [g.latlng] is empty, and
    [Some (Some latlng)] otherwise.  The cache of line 34 is not modelled. *)
Definition get_current_location (ip_me : option (option Coordinate))
  : Coordinate :=
  match ip_me with
  | Some (Some latlng) => latlng
  | _ => (34.0522, -118.2437)
  end.

(** *** Reading the names (lines 149-150)

    A Python [str] is embedded as a [string] whose characters are the code
    points, so only text with code points below 256 is covered. *)

(** [str.isspace] on one character below 256: tab to carriage return,
    the four separators 28-31, space, NEL (133) and no-break space (160). *)
Definition isspace (c : ascii) : bool :=
  let n := nat_of_ascii c in
  ((9 <=? n) && (n <=? 13) || (28 <=? n) && (n <=? 32)
   || (n =? 133) || (n =? 160))%nat.

Fixpoint lstrip (s : string) : string :=
  match s with
  | EmptyString => EmptyString
  | String c rest => if isspace c then lstrip rest else s
  end.

Fixpoint rstrip (s : string) : string :=
  match s with
  | EmptyString => EmptyString
  | String c rest =>
      match rstrip rest with
      | EmptyString => if isspace c then EmptyString else String c EmptyString
      | kept => String c kept
      end
  end.

(** [s.strip ()]. *)
Definition strip (s : string) : string := rstrip (lstrip s).

(** [s.replace (old, new)] for one-character [old] and [new]. *)
Fixpoint replace_char (old new : ascii) (s : string) : string :=
  match s with
  | EmptyString => EmptyString
  | String c rest =>
      String (if Ascii.eqb c old then new else c) (replace_char old new rest)
  end.

(** [s.split (sep)] for a one-character [sep]. *)
Fixpoint split_char (sep : ascii) (s : string) : list string :=
  match s with
  | EmptyString => [EmptyString]
  | String c rest =>
      if Ascii.eqb c sep then EmptyString :: split_char sep rest
      else
        match split_char sep rest with
        | [] => [String c EmptyString]
        | piece :: pieces => String c piece :: pieces
        end
  end.

Definition newline : ascii := "010"%char.

Definition comma : ascii := ","%char.

(** Lines 149-150: [city_names] from the text area. *)
Definition parse_cities (city_input : string) : list string :=
  let raw_text := replace_char newline comma city_input in
  flat_map
    (fun c => match strip c with
              | EmptyString => []
              | stripped => [stripped]
              end)
    (split_char comma raw_text).

(** Whether [c] occurs in [s]. *)
Fixpoint has_char (c : ascii) (s : string) : bool :=
  match s with
  | EmptyString => false
  | String c' rest => Ascii.eqb c' c || has_char c rest
  end.

(** Whether every character of [s] satisfies [P]. *)
Fixpoint only (P : ascii -> bool) (s : string) : bool :=
  match s with
  | EmptyString => true
  | String c rest => P c && only P rest
  end.

(** A character that can only separate names: white space or a comma. *)
Definition is_blank (c : ascii) : bool := isspace c || Ascii.eqb c comma.

(** *** The archive (lines 80-84) *)




(** ** Example data *)

Definition example_geocoder (s : string) : option Coordinate :=
  if string_dec s "Pasadena CA" then Some (34.1478, -118.1445)
  else if string_dec s "Arcadia CA" then Some (34.1397, -118.0353)
  else None.

Definition five_files : list UploadedFile :=
  [mkFile "1.jpg" []; mkFile "2.jpg" []; mkFile "3.jpg" [];
   mkFile "4.jpg" []; mkFile "5.jpg" []].

(** ** Basic facts *)

Lemma truediv_ok (x y : R) : y <> 0 -> truediv x y = Ok (x / y).
Proof.
  intros Hy. unfold truediv. destruct (Req_EM_T y 0); [contradiction | reflexivity].
Qed.

Lemma math_sqrt_ok (x : R) : 0 <= x -> math_sqrt x = Ok (sqrt x).
Proof.
  intros Hx. unfold math_sqrt. destruct (Rlt_dec x 0); [lra | reflexivity].
Qed.

Lemma cos_radians_nonzero (lat : R) :
  -90 < lat < 90 -> cos (math_radians lat) <> 0.
Proof.
  intros [Hlo Hhi]. unfold math_radians.
  pose proof PI_RGT_0 as Hpi.
  apply Rgt_not_eq. apply cos_gt_0.
  - replace (- (PI / 2)) with (-90 * (PI / 180)) by field.
    apply Rmult_lt_compat_r; lra.
  - replace (PI / 2) with (90 * (PI / 180)) by field.
    apply Rmult_lt_compat_r; lra.
Qed.

(** ** The sampler *)

Lemma sample_degenerate (rand : nat -> R) (lat lon radius_km : R) (k : nat) :
  radius_km <= 0 ->
  get_random_point_in_radius rand lat lon radius_km k = Ok ((lat, lon), k).
Proof.
  intros Hr. unfold get_random_point_in_radius.
  destruct (Rle_dec radius_km 0); [reflexivity | contradiction].
Qed.

(** With a positive radius and a non-negative first draw, everything up to
    the last division goes through. *)
Lemma sample_positive (rand : nat -> R) (lat lon radius_km : R) (k : nat) :
  0 < radius_km -> 0 <= rand k ->
  get_random_point_in_radius rand lat lon radius_km k =
    rbind
      (truediv
         (radius_km / 6371 * sqrt (rand k) * sin (2 * PI * rand (S k)) / PI * 180)
         (cos (math_radians lat)))
      (fun yc =>
         Ok ((radius_km / 6371 * sqrt (rand k) * cos (2 * PI * rand (S k)) / PI * 180
              + lat, yc + lon), S (S k))).
Proof.
  intros Hr Hu. unfold get_random_point_in_radius.
  destruct (Rle_dec radius_km 0) as [Hle | _]; [lra |].
  unfold bind, lift, random, ret.
  rewrite (truediv_ok radius_km 6371) by lra.
  rewrite (math_sqrt_ok (rand k) Hu).
  rewrite !(truediv_ok _ PI) by apply PI_neq0.
  destruct (truediv _ (cos (math_radians lat))); reflexivity.
Qed.

Lemma sample_positive_closed
    (rand : nat -> R) (lat lon radius_km : R) (k : nat) :
  0 < radius_km -> (forall j, 0 <= rand j < 1) ->
  cos (math_radians lat) <> 0 ->
  get_random_point_in_radius rand lat lon radius_km k
  = Ok (spec_sample lat lon radius_km (rand k) (rand (S k)), S (S k)).
Proof.
  intros Hr Hrand Hc.
  rewrite sample_positive by (try apply Hrand; assumption).
  rewrite truediv_ok by assumption. cbn [rbind].
  unfold spec_sample. cbv zeta.
  replace (lat * PI / 180) with (math_radians lat) by (unfold math_radians; field).
  pose proof PI_neq0 as Hpi.
  apply f_equal. apply (f_equal2 pair); [| reflexivity].
  apply (f_equal2 pair); field; auto.
Qed.



(** C2.  For a radius [<= 0] (zero included) the centre is returned
    unchanged, as a normal result, whatever the random source is; no draw
    is consumed. *)
Theorem sample_nonpositive_radius
    (rand : nat -> R) (lat lon radius_km : R) (k : nat) :
  radius_km <= 0 ->
  get_random_point_in_radius rand lat lon radius_km k = Ok ((lat, lon), k).
Proof.
  apply sample_degenerate.
Qed.

Lemma sample_nonpositive_radius_witness :
  get_random_point_in_radius (fun _ => 1 / 2) 34.05 (-118.24) 0 0%nat
  = Ok ((34.05, -118.24), 0%nat).
Proof.
  apply (sample_nonpositive_radius (fun _ => 1 / 2) 34.05 (-118.24) 0 0%nat).
  lra.
Defined.

(** ** Longitude normalisation *)

Lemma Zceil_bound (x : R) : IZR (Zceil x) - 1 < x <= IZR (Zceil x).
Proof.
  unfold Zceil. rewrite opp_IZR.
  pose proof (Zfloor_bound (- x)) as [Hlo Hhi]. lra.
Qed.

(** The remainder of [fmod] by 360 is below 360 in magnitude and has the
    sign of the dividend. *)
Lemma c_fmod_360 (x : R) :
  (0 <= x -> 0 <= c_fmod x 360 < 360)
  /\ (x < 0 -> -360 < c_fmod x 360 <= 0).
Proof.
  assert (Hx : x = 360 * (x / 360)) by field.
  unfold c_fmod, Ztrunc. destruct (Rle_dec 0 (x / 360)) as [Hq | Hq].
  - pose proof (Zfloor_bound (x / 360)) as [Hlo Hhi]. split; intros H; lra.
  - pose proof (Zceil_bound (x / 360)) as [Hlo Hhi]. split; intros H; lra.
Qed.

Lemma c_fmod_360_floor (x : R) (z : Z) :
  0 <= x -> 360 * IZR z <= x < 360 * IZR z + 360 ->
  c_fmod x 360 = x - 360 * IZR z.
Proof.
  intros H0 [Hlo Hhi]. unfold c_fmod, Ztrunc.
  assert (Hx : x = 360 * (x / 360)) by field.
  destruct (Rle_dec 0 (x / 360)) as [_ | Hq]; [| exfalso; lra].
  rewrite (Zfloor_eq z); [ring |]. lra.
Qed.

Lemma c_fmod_360_ceil (x : R) (z : Z) :
  x < 0 -> 360 * IZR z - 360 < x <= 360 * IZR z ->
  c_fmod x 360 = x - 360 * IZR z.
Proof.
  intros H0 [Hlo Hhi]. unfold c_fmod, Ztrunc.
  assert (Hx : x = 360 * (x / 360)) by field.
  destruct (Rle_dec 0 (x / 360)) as [Hq | _]; [exfalso; lra |].
  rewrite (Zceil_eq z); [ring |]. lra.
Qed.

Section Rounded.

Variable rnd : R -> R.
Hypothesis rnd_ok : rounding rnd.

Lemma rnd_const (z : Z) (x : R) :
  x = IZR z -> (Z.abs z <= 2 ^ 53)%Z -> rnd x = x.
Proof.
  intros -> Hz. apply (rnd_int rnd rnd_ok). exact Hz.
Qed.

(** A non-negative dividend: the remainder is returned as it is. *)
Lemma float_mod_360_nonneg (x : R) (z : Z) :
  0 <= x -> 360 * IZR z <= x < 360 * IZR z + 360 ->
  float_mod rnd x 360 = Ok (x - 360 * IZR z).
Proof.
  intros H0 Hz. unfold float_mod.
  destruct (Req_EM_T 360 0) as [H | _]; [exfalso; lra |].
  rewrite (c_fmod_360_floor x z H0 Hz). cbv zeta.
  destruct (Req_EM_T (x - 360 * IZR z) 0) as [-> | Hm]; [reflexivity |].
  destruct (Rlt_dec 360 0) as [H | _]; [exfalso; lra |].
  destruct (Rlt_dec (x - 360 * IZR z) 0) as [H | _]; [exfalso; lra |].
  reflexivity.
Qed.

(** A negative dividend that is not a multiple of 360: 360 is added to
    the remainder, and that sum is rounded. *)
Lemma float_mod_360_neg (x : R) (z : Z) :
  x < 0 -> 360 * IZR z - 360 < x < 360 * IZR z ->
  float_mod rnd x 360 = Ok (rnd (x - 360 * IZR z + 360)).
Proof.
  intros H0 [Hlo Hhi]. unfold float_mod.
  destruct (Req_EM_T 360 0) as [H | _]; [exfalso; lra |].
  rewrite (c_fmod_360_ceil x z H0) by lra. cbv zeta.
  destruct (Req_EM_T (x - 360 * IZR z) 0) as [H | _]; [exfalso; lra |].
  destruct (Rlt_dec 360 0) as [H | _]; [exfalso; lra |].
  destruct (Rlt_dec (x - 360 * IZR z) 0) as [_ | H]; [| exfalso; lra].
  reflexivity.
Qed.

Lemma float_mod_360_range (x : R) :
  exists m, float_mod rnd x 360 = Ok m /\ 0 <= m <= 360.
Proof.
  pose proof (c_fmod_360 x) as [Hpos Hneg].
  assert (H0 : rnd 0 = 0) by (apply (rnd_const 0); [reflexivity | discriminate]).
  assert (H360 : rnd 360 = 360)
    by (apply (rnd_const 360); [reflexivity | discriminate]).
  unfold float_mod.
  destruct (Req_EM_T 360 0) as [H | _]; [exfalso; lra |]. cbv zeta.
  destruct (Req_EM_T (c_fmod x 360) 0) as [Hm | Hm].
  - exists 0. split; [reflexivity | lra].
  - destruct (Rlt_dec 360 0) as [H | _]; [exfalso; lra |].
    destruct (Rlt_dec (c_fmod x 360) 0) as [Hlt | Hge]; cbn [Bool.eqb].
    + eexists. split; [reflexivity |].
      destruct (Rle_dec 0 x) as [Hx | Hx]; [specialize (Hpos Hx); lra |].
      specialize (Hneg ltac:(lra)).
      pose proof (rnd_mono rnd rnd_ok 0 (c_fmod x 360 + 360) ltac:(lra)).
      pose proof (rnd_mono rnd rnd_ok (c_fmod x 360 + 360) 360 ltac:(lra)).
      lra.
    + eexists. split; [reflexivity |].
      destruct (Rle_dec 0 x) as [Hx | Hx]; [specialize (Hpos Hx); lra |].
      specialize (Hneg ltac:(lra)). lra.
Qed.

Lemma normalize_lon_in_range (raw_lon : R) :
  exists clicked_lon,
    normalize_lon rnd raw_lon = Ok clicked_lon /\ -180 <= clicked_lon <= 180.
Proof.
  destruct (float_mod_360_range (rnd (raw_lon + 180))) as [m [Hm Hrange]].
  unfold normalize_lon. rewrite Hm. cbn [rbind].
  eexists. split; [reflexivity |].
  assert (Hlo : rnd (-180) = -180)
    by (apply (rnd_const (-180)); [reflexivity | discriminate]).
  assert (Hhi : rnd 180 = 180)
    by (apply (rnd_const 180); [reflexivity | discriminate]).
  pose proof (rnd_mono rnd rnd_ok (-180) (m - 180) ltac:(lra)).
  pose proof (rnd_mono rnd rnd_ok (m - 180) 180 ltac:(lra)).
  lra.
Qed.

Lemma normalize_lon_185 : normalize_lon rnd 185 = Ok (-175).
Proof.
  unfold normalize_lon.
  rewrite (rnd_const 365 (185 + 180)) by (try lra; discriminate).
  rewrite (float_mod_360_nonneg _ 1) by lra. cbn [rbind]. f_equal.
  rewrite (rnd_const (-175)) by (try lra; discriminate). lra.
Qed.

Lemma normalize_lon_m185 : normalize_lon rnd (-185) = Ok 175.
Proof.
  unfold normalize_lon.
  rewrite (rnd_const (-5) (-185 + 180)) by (try lra; discriminate).
  rewrite (float_mod_360_neg _ 0) by lra. cbn [rbind]. f_equal.
  rewrite (rnd_const 355 (-185 + 180 - 360 * 0 + 360)) by (try lra; discriminate).
  rewrite (rnd_const 175) by (try lra; discriminate). lra.
Qed.

Lemma normalize_lon_180 : normalize_lon rnd 180 = Ok (-180).
Proof.
  unfold normalize_lon.
  rewrite (rnd_const 360 (180 + 180)) by (try lra; discriminate).
  rewrite (float_mod_360_nonneg _ 1) by lra. cbn [rbind]. f_equal.
  rewrite (rnd_const (-180)) by (try lra; discriminate). lra.
Qed.

Lemma normalize_lon_0 : normalize_lon rnd 0 = Ok 0.
Proof.
  unfold normalize_lon.
  rewrite (rnd_const 180 (0 + 180)) by (try lra; discriminate).
  rewrite (float_mod_360_nonneg _ 0) by lra. cbn [rbind]. f_equal.
  rewrite (rnd_const 0) by (try lra; discriminate). lra.
Qed.

End Rounded.

Lemma rounding_exact : rounding (fun x => x).
Proof.
  split; [intros x y H; exact H | reflexivity].
Qed.

(** The double next below -180, which prints as -180.00000000000003, is
    sent to 180.0: its sum with 180 is the exact [-2^-45], the remainder of
    that is itself, and [-2^-45 + 360] rounds to 360. *)
Lemma normalize_lon_below_m180 :
  Binary64.normalize_lon (PrimFloat.next_down (Binary64.of_Z (-180)))
  = Ok (Binary64.of_Z 180).
Proof.
  vm_compute. reflexivity.
Qed.

(** C8, as stated, fails on doubles: some finite raw longitude is not sent
    into the half-open [[-180, 180)]. *)
Lemma normalize_lon_not_half_open :
  ~ (forall raw_lon,
        PrimFloat.is_finite raw_lon = true ->
        exists r,
          Binary64.normalize_lon raw_lon = Ok r
          /\ PrimFloat.leb (Binary64.of_Z (-180)) r = true
          /\ PrimFloat.ltb r (Binary64.of_Z 180) = true).
Proof.
  intros H.
  destruct (H (PrimFloat.next_down (Binary64.of_Z (-180))) eq_refl)
    as [r [Hr [_ Hlt]]].
  rewrite normalize_lon_below_m180 in Hr. injection Hr as <-.
  vm_compute in Hlt. discriminate Hlt.
Qed.

(** C8, amended.  A map click's longitude goes through
    [((raw_lon + 180) % 360) - 180], in double arithmetic, before it
    becomes the centre.  For every rounding that keeps the order and is
    exact on the integers up to [2^53], as that of doubles is, the value
    is in the closed [[-180, 180]] for every input, and 185, -185, 180, 0
    are sent to -175, 175, -180, 0.  On binary64 itself these four values
    are the same, and the upper end 180.0 is reached, at the double next
    below -180. *)
Theorem normalize_lon_closed_range (rnd : R -> R) :
  rounding rnd ->
  (forall start lat raw_lon,
      exists clicked_lon,
        normalize_lon rnd raw_lon = Ok clicked_lon
        /\ clicked rnd start (Some (lat, raw_lon)) = Ok (lat, clicked_lon)
        /\ -180 <= clicked_lon <= 180)
  /\ (normalize_lon rnd 185 = Ok (-175)
      /\ normalize_lon rnd (-185) = Ok 175
      /\ normalize_lon rnd 180 = Ok (-180)
      /\ normalize_lon rnd 0 = Ok 0)
  /\ (Binary64.normalize_lon (Binary64.of_Z 185) = Ok (Binary64.of_Z (-175))
      /\ Binary64.normalize_lon (Binary64.of_Z (-185)) = Ok (Binary64.of_Z 175)
      /\ Binary64.normalize_lon (Binary64.of_Z 180) = Ok (Binary64.of_Z (-180))
      /\ Binary64.normalize_lon (Binary64.of_Z 0) = Ok (Binary64.of_Z 0))
  /\ Binary64.normalize_lon (PrimFloat.next_down (Binary64.of_Z (-180)))
     = Ok (Binary64.of_Z 180).
Proof.
  intros Hrnd. split; [| split; [| split]].
  - intros start lat raw_lon.
    destruct (normalize_lon_in_range rnd Hrnd raw_lon) as [r [Hr Hrange]].
    exists r. split; [exact Hr |]. split; [| exact Hrange].
    unfold clicked. rewrite Hr. reflexivity.
  - repeat split.
    + apply normalize_lon_185. exact Hrnd.
    + apply normalize_lon_m185. exact Hrnd.
    + apply normalize_lon_180. exact Hrnd.
    + apply normalize_lon_0. exact Hrnd.
  - repeat split; vm_compute; reflexivity.
  - apply normalize_lon_below_m180.
Qed.

Lemma normalize_lon_closed_range_witness :
  normalize_lon (fun x => x) (-185) = Ok 175
  /\ exists clicked_lon,
       clicked (fun x => x) (34.05, -118.24) (Some (34.05, 541.76))
       = Ok (34.05, clicked_lon)
       /\ -180 <= clicked_lon <= 180.
Proof.
  destruct (normalize_lon_closed_range (fun x => x) rounding_exact)
    as [Hrange [[_ [H185 _]] _]].
  split; [exact H185 |].
  destruct (Hrange (34.05, -118.24) 34.05 541.76) as [r [_ [Hc Hr]]].
  exists r. split; [exact Hc | exact Hr].
Defined.

(** ** Pin on Map *)

Lemma pin_loop_degenerate (rand : nat -> R) (files : list UploadedFile)
    (lat lon radius : R) (acc : list Coordinate) (k : nat) :
  radius <= 0 ->
  pin_loop rand files lat lon radius acc k
  = Ok (acc ++ repeat (lat, lon) (List.length files), k).
Proof.
  intros Hr. revert acc. induction files as [| f rest IH]; intros acc.
  - cbn. rewrite app_nil_r. reflexivity.
  - cbn [pin_loop]. unfold bind. rewrite sample_degenerate by assumption.
    rewrite IH. rewrite <- app_assoc. reflexivity.
Qed.

Lemma sample_at (rand : nat -> R) (lat lon radius : R) (k i : nat) :
  0 < radius -> (forall j, 0 <= rand j < 1) ->
  cos (math_radians lat) <> 0 ->
  get_random_point_in_radius rand lat lon radius (k + 2 * i)%nat
  = Ok (nth_sample rand lat lon radius k i, (k + 2 * i + 2)%nat).
Proof.
  intros Hr Hrand Hc. unfold nth_sample.
  replace (k + 2 * i + 2)%nat with (S (S (k + 2 * i))) by lia.
  replace (k + 2 * i + 1)%nat with (S (k + 2 * i)) by lia.
  apply sample_positive_closed; auto.
Qed.

Lemma pin_loop_positive (rand : nat -> R) (files : list UploadedFile)
    (lat lon radius : R) (acc : list Coordinate) (k : nat) :
  0 < radius -> (forall j, 0 <= rand j < 1) ->
  cos (math_radians lat) <> 0 ->
  pin_loop rand files lat lon radius acc k
  = Ok (acc ++ map (nth_sample rand lat lon radius k) (seq 0 (List.length files)),
        (k + 2 * List.length files)%nat).
Proof.
  intros Hr Hrand Hc. revert acc k.
  induction files as [| f rest IH]; intros acc k.
  - cbn. rewrite app_nil_r. unfold ret. do 2 f_equal. lia.
  - cbn [pin_loop]. unfold bind.
    pose proof (sample_at rand lat lon radius k 0 Hr Hrand Hc) as H0.
    replace (k + 2 * 0)%nat with k in H0 by lia. rewrite H0.
    rewrite IH. cbn [List.length seq map].
    rewrite <- seq_shift, map_map, <- app_assoc. cbn [app].
    f_equal. f_equal.
    + f_equal. f_equal. apply map_ext. intros i. unfold nth_sample.
      f_equal; f_equal; lia.
    + lia.
Qed.

Lemma pin_mode_degenerate (rand : nat -> R) (rnd : R -> R) (start : Coordinate)
    (last_clicked : option Coordinate) (radius lat lon : R)
    (files : list UploadedFile) (k : nat) :
  clicked rnd start last_clicked = Ok (lat, lon) -> radius <= 0 ->
  pin_mode rand rnd start last_clicked radius files k
  = Ok (repeat (lat, lon) (List.length files), k).
Proof.
  intros Hc Hr. unfold pin_mode, bind, lift. rewrite Hc. cbn [fst snd].
  rewrite pin_loop_degenerate by assumption. reflexivity.
Qed.

Lemma pin_mode_positive (rand : nat -> R) (rnd : R -> R) (start : Coordinate)
    (last_clicked : option Coordinate) (radius lat lon : R)
    (files : list UploadedFile) (k : nat) :
  clicked rnd start last_clicked = Ok (lat, lon) ->
  0 < radius -> (forall j, 0 <= rand j < 1) ->
  cos (math_radians lat) <> 0 ->
  pin_mode rand rnd start last_clicked radius files k
  = Ok (map (nth_sample rand lat lon radius k) (seq 0 (List.length files)),
        (k + 2 * List.length files)%nat).
Proof.
  intros Hc Hr Hrand Hcos. unfold pin_mode, bind, lift. rewrite Hc.
  cbn [fst snd]. rewrite pin_loop_positive by assumption. reflexivity.
Qed.

(** C6.  In pin mode, with centre [(lat, lon)], every uploaded file gets
    its own call of the sampler.  For a radius [<= 0] the targets are [N]
    copies of the centre.  For a positive radius, file [i] gets the sample
    computed from its own two draws [k + 2i] and [k + 2i + 1], where [k]
    draws had been made before: that entry is the result of
    [get_random_point_in_radius] called in the state the previous files
    left, and [2N] draws are consumed in all. *)
Theorem pin_mode_independent_draws
    (rand : nat -> R) (rnd : R -> R) (start : Coordinate) (last_clicked : option Coordinate)
    (radius lat lon : R) (uploaded_files : list UploadedFile) (k : nat) :
  clicked rnd start last_clicked = Ok (lat, lon) ->
  (radius <= 0 ->
     pin_mode rand rnd start last_clicked radius uploaded_files k
     = Ok (repeat (lat, lon) (List.length uploaded_files), k))
  /\ (0 < radius -> (forall j, 0 <= rand j < 1) ->
      cos (math_radians lat) <> 0 ->
      pin_mode rand rnd start last_clicked radius uploaded_files k
      = Ok (map (nth_sample rand lat lon radius k)
              (seq 0 (List.length uploaded_files)),
            (k + 2 * List.length uploaded_files)%nat)
      /\ forall i, (i < List.length uploaded_files)%nat ->
           get_random_point_in_radius rand lat lon radius (k + 2 * i)%nat
           = Ok (nth_sample rand lat lon radius k i, (k + 2 * i + 2)%nat)).
Proof.
  intros Hc. split.
  - intros Hr. apply pin_mode_degenerate; assumption.
  - intros Hr Hrand Hcos. split.
    + apply pin_mode_positive; assumption.
    + intros i _. apply sample_at; assumption.
Qed.

Lemma pin_mode_independent_draws_witness :
  pin_mode (fun _ => 1 / 2) (fun x => x) (34.05, -118.24) None 0
    [mkFile "a.jpg" []; mkFile "b.jpg" []; mkFile "c.webp" []] 0%nat
  = Ok ([(34.05, -118.24); (34.05, -118.24); (34.05, -118.24)], 0%nat)
  /\ pin_mode (fun _ => 1 / 2) (fun x => x) (34.05, -118.24) None 10
       [mkFile "a.jpg" []; mkFile "b.jpg" []] 0%nat
     = Ok ([nth_sample (fun _ => 1 / 2) 34.05 (-118.24) 10 0%nat 0%nat;
            nth_sample (fun _ => 1 / 2) 34.05 (-118.24) 10 0%nat 1%nat], 4%nat).
Proof.
  split.
  - apply (pin_mode_independent_draws (fun _ => 1 / 2) (fun x => x) (34.05, -118.24) None
             0 34.05 (-118.24)
             [mkFile "a.jpg" []; mkFile "b.jpg" []; mkFile "c.webp" []] 0%nat
             eq_refl).
    lra.
  - apply (pin_mode_independent_draws (fun _ => 1 / 2) (fun x => x) (34.05, -118.24) None
             10 34.05 (-118.24)
             [mkFile "a.jpg" []; mkFile "b.jpg" []] 0%nat eq_refl).
    + lra.
    + intros j. lra.
    + apply cos_radians_nonzero. lra.
Defined.

(** ** List of Cities *)

Lemma dict_get_set (d : dict) (k k' : string) (v : Coordinate) :
  dict_get (dict_set d k v) k'
  = if string_dec k k' then Some v else dict_get d k'.
Proof.
  induction d as [| [k0 v0] rest IH]; cbn.
  - destruct (string_dec k k'); reflexivity.
  - destruct (string_dec k0 k) as [E | N]; cbn.
    + subst k0. destruct (string_dec k k'); reflexivity.
    + destruct (string_dec k0 k') as [E' | N'].
      * subst k0. destruct (string_dec k k'); [congruence | reflexivity].
      * apply IH.
Qed.

Lemma dict_set_In (d : dict) (k k' : string) (v v' : Coordinate) :
  In (k', v') (dict_set d k v) -> In (k', v') d \/ (k', v') = (k, v).
Proof.
  induction d as [| [k0 v0] rest IH]; cbn.
  - intros [E | []]. right. symmetry. exact E.
  - destruct (string_dec k0 k) as [E | N]; cbn.
    + subst k0. intros [E | H]; [right; symmetry; exact E | left; right; exact H].
    + intros [E | H]; [left; left; exact E |].
      destruct (IH H) as [H' | H']; [left; right; exact H' | right; exact H'].
Qed.

Lemma dict_get_In (d : dict) (k : string) (v : Coordinate) :
  dict_get d k = Some v -> In (k, v) d.
Proof.
  induction d as [| [k0 v0] rest IH]; cbn; [discriminate |].
  destruct (string_dec k0 k) as [E | N].
  - intros [= ->]. subst k0. left. reflexivity.
  - intros H. right. apply IH. exact H.
Qed.

Section CityFacts.

Variable arcgis : string -> option Coordinate.
Variable set_list : list string -> list string.

(** What Python guarantees of [list (set (l))]: the same elements. *)
Hypothesis set_list_In : forall l x, In x (set_list l) <-> In x l.

Lemma lookup_cities_get (cities : list string) (d : dict) (failed : list string)
    (x : string) :
  dict_get (fst (lookup_cities arcgis cities d failed)) x
  = match (if in_dec string_dec x cities then arcgis x else None) with
    | Some c => Some c
    | None => dict_get d x
    end.
Proof.
  revert d failed. induction cities as [| city rest IH]; intros d failed.
  - reflexivity.
  - cbn [lookup_cities]. destruct (arcgis city) as [latlng |] eqn:Ea.
    + rewrite IH, dict_get_set.
      destruct (string_dec city x) as [E | N].
      * subst x. rewrite Ea.
        destruct (in_dec string_dec city rest);
          destruct (in_dec string_dec city (city :: rest)) as [| Hn];
          try reflexivity; exfalso; apply Hn; left; reflexivity.
      * destruct (in_dec string_dec x rest) as [Hin | Hnin];
          destruct (in_dec string_dec x (city :: rest)) as [Hin' | Hnin'];
          try reflexivity.
        -- exfalso. apply Hnin'. right. exact Hin.
        -- destruct Hin' as [E | Hin']; contradiction.
    + rewrite IH.
      destruct (in_dec string_dec x rest) as [Hin | Hnin];
        destruct (in_dec string_dec x (city :: rest)) as [Hin' | Hnin'];
        try reflexivity.
      * exfalso. apply Hnin'. right. exact Hin.
      * destruct Hin' as [E | Hin']; [| contradiction].
        subst x. rewrite Ea. reflexivity.
Qed.

Lemma lookup_cities_In (cities : list string) (d : dict) (failed : list string)
    (k : string) (v : Coordinate) :
  In (k, v) (fst (lookup_cities arcgis cities d failed)) ->
  In (k, v) d \/ (In k cities /\ arcgis k = Some v).
Proof.
  revert d failed. induction cities as [| city rest IH]; intros d failed.
  - cbn. auto.
  - cbn [lookup_cities]. destruct (arcgis city) as [latlng |] eqn:Ea; intros H.
    + destruct (IH _ _ H) as [Hd | [Hin Hv]].
      * destruct (dict_set_In _ _ _ _ _ Hd) as [Hd' | [= -> ->]].
        -- left. exact Hd'.
        -- right. split; [left; reflexivity | exact Ea].
      * right. split; [right; exact Hin | exact Hv].
    + destruct (IH _ _ H) as [Hd | [Hin Hv]].
      * left. exact Hd.
      * right. split; [right; exact Hin | exact Hv].
Qed.

Lemma coords_of_get (city_names : list string) (city : string) :
  In city city_names -> dict_get (coords_of arcgis set_list city_names) city = arcgis city.
Proof.
  intros Hin. unfold coords_of. rewrite lookup_cities_get.
  destruct (in_dec string_dec city (set_list city_names)) as [_ | Hn].
  - cbn. destruct (arcgis city); reflexivity.
  - exfalso. apply Hn. apply set_list_In. exact Hin.
Qed.

Lemma coords_of_In (city_names : list string) (k : string) (v : Coordinate) :
  In (k, v) (coords_of arcgis set_list city_names) -> In k city_names /\ arcgis k = Some v.
Proof.
  intros H. destruct (lookup_cities_In _ _ _ _ _ H) as [[] | [Hin Hv]].
  split; [apply set_list_In; exact Hin | exact Hv].
Qed.

Lemma coords_of_nonempty (city_names : list string) (city : string)
    (X : Coordinate) :
  In city city_names -> arcgis city = Some X -> coords_of arcgis set_list city_names <> [].
Proof.
  intros Hin Ha Hnil. pose proof (coords_of_get _ _ Hin) as Hg.
  rewrite Hnil, Ha in Hg. discriminate Hg.
Qed.

Lemma coords_of_empty (city_names : list string) :
  (forall city, In city city_names -> arcgis city = None) ->
  coords_of arcgis set_list city_names = [].
Proof.
  intros Hnone. destruct (coords_of arcgis set_list city_names) as [| [k v] rest] eqn:E;
    [reflexivity |].
  assert (Hin : In (k, v) (coords_of arcgis set_list city_names)) by (rewrite E; left; reflexivity).
  destruct (coords_of_In _ _ _ Hin) as [Hk Hv].
  rewrite (Hnone _ Hk) in Hv. discriminate Hv.
Qed.

Lemma city_target_ok (city_names : list string) (k0 : string) (v0 : Coordinate)
    (d' : dict) (i : nat) :
  city_names <> [] ->
  exists city,
    nth_error city_names (i mod List.length city_names) = Some city
    /\ city_target city_names ((k0, v0) :: d') i
       = Ok (Some match dict_get ((k0, v0) :: d') city with
                  | Some c => c
                  | None => v0
                  end).
Proof.
  intros Hne. unfold city_target.
  destruct (List.length city_names) as [| n] eqn:Elen.
  - destruct city_names; [contradiction | discriminate Elen].
  - rewrite <- Elen.
    destruct (nth_error city_names (i mod List.length city_names))
      as [city |] eqn:En.
    + exists city. split; [reflexivity |].
      destruct (dict_get ((k0, v0) :: d') city); reflexivity.
    + exfalso. apply nth_error_None in En.
      pose proof (Nat.mod_upper_bound i (List.length city_names)) as Hlt.
      lia.
Qed.

Lemma city_loop_ok (city_names : list string) (k0 : string) (v0 : Coordinate)
    (d' : dict) (indices : list nat) (acc : list Coordinate) :
  city_names <> [] ->
  exists ts,
    city_loop indices city_names ((k0, v0) :: d') acc = Ok (acc ++ ts)
    /\ List.length ts = List.length indices
    /\ forall j i, nth_error indices j = Some i ->
         exists city,
           nth_error city_names (i mod List.length city_names) = Some city
           /\ nth_error ts j
              = Some match dict_get ((k0, v0) :: d') city with
                     | Some c => c
                     | None => v0
                     end.
Proof.
  intros Hne. revert acc. induction indices as [| i rest IH]; intros acc.
  - exists []. cbn [city_loop]. rewrite app_nil_r. repeat split.
    intros [| j] i H; discriminate H.
  - cbn [city_loop].
    destruct (city_target_ok city_names k0 v0 d' i Hne) as [city [Hc Ht]].
    rewrite Ht. cbn [rbind].
    destruct (IH (acc ++ [match dict_get ((k0, v0) :: d') city with
                          | Some c => c
                          | None => v0
                          end])) as [ts [Hloop [Hlen Hnth]]].
    eexists (_ :: ts). rewrite Hloop, <- app_assoc. cbn [app].
    split; [reflexivity |]. split; [cbn; lia |].
    intros [| j] i' H.
    + injection H as <-. exists city. split; [exact Hc | reflexivity].
    + apply Hnth. exact H.
Qed.

Lemma nth_error_seq0 (n i : nat) : (i < n)%nat -> nth_error (seq 0 n) i = Some i.
Proof.
  intros Hi. rewrite (nth_error_nth' (seq 0 n) 0%nat) by (rewrite length_seq; exact Hi).
  rewrite seq_nth by exact Hi. reflexivity.
Qed.

(** [city_mode] once there is a file and a name: what it returns is
    decided by whether [unique_coords] is empty. *)
Lemma city_mode_unfold (city_names : list string) (files : list UploadedFile) :
  files <> [] -> city_names <> [] ->
  exists warn,
    (forall s, ~ In (st_success s) warn)
    /\ (forall s, ~ In (st_error s) warn)
    /\ city_mode arcgis set_list city_names files
       = if is_empty (coords_of arcgis set_list city_names)
         then Ok ([], warn ++ [st_error not_found_msg])
         else
           rbind (city_loop (seq 0 (List.length files)) city_names
                    (coords_of arcgis set_list city_names) [])
             (fun final_targets =>
                Ok (final_targets,
                    warn ++ [st_success
                               ("Ready to tag locations: "
                                ++ String.concat ", "
                                     (dict_keys
                                        (coords_of arcgis set_list city_names)))])).
Proof.
  intros Hf Hn. unfold city_mode, coords_of.
  destruct files as [| f files]; [contradiction |].
  destruct city_names as [| c names]; [contradiction |].
  cbn [is_empty].
  destruct (lookup_cities arcgis (set_list (c :: names)) [] [])
    as [unique_coords failed_cities].
  cbn [fst].
  eexists. split; [| split; [| reflexivity]].
  - intros s. destruct (is_empty failed_cities); cbn; intuition discriminate.
  - intros s. destruct (is_empty failed_cities); cbn; intuition discriminate.
Qed.

Lemma nth_error_cyclic (city_names : list string) (i : nat) :
  city_names <> [] ->
  exists city,
    nth_error city_names (i mod List.length city_names) = Some city
    /\ In city city_names.
Proof.
  intros Hne.
  destruct (nth_error city_names (i mod List.length city_names))
    as [city |] eqn:En.
  - exists city. split; [reflexivity | exact (nth_error_In _ _ En)].
  - exfalso. apply nth_error_None in En.
    assert (List.length city_names <> 0%nat)
      by (destruct city_names; [contradiction | discriminate]).
    pose proof (Nat.mod_upper_bound i (List.length city_names)). lia.
Qed.

Lemma resolved_or_not (city_names : list string) :
  (exists city X, In city city_names /\ arcgis city = Some X)
  \/ (forall city, In city city_names -> arcgis city = None).
Proof.
  induction city_names as [| c rest [[city [X [Hin Ha]]] | Hnone]].
  - right. intros city [].
  - left. exists city, X. split; [right; exact Hin | exact Ha].
  - destruct (arcgis c) as [X |] eqn:Ec.
    + left. exists c, X. split; [left; reflexivity | exact Ec].
    + right. intros city [<- | Hin]; [exact Ec | exact (Hnone _ Hin)].
Qed.

(** At least one name resolved: one target per file, the name's own
    coordinate or else the first value of [unique_coords]. *)
Lemma city_mode_some_resolved (city_names : list string)
    (files : list UploadedFile) :
  (exists city X, In city city_names /\ arcgis city = Some X) ->
  exists final_targets msgs fallback,
    city_mode arcgis set_list city_names files = Ok (final_targets, msgs)
    /\ List.length final_targets = List.length files
    /\ (exists name, In name city_names /\ arcgis name = Some fallback)
    /\ forall i, (i < List.length files)%nat ->
         exists city,
           nth_error city_names (i mod List.length city_names) = Some city
           /\ nth_error final_targets i
              = Some match arcgis city with
                     | Some c => c
                     | None => fallback
                     end.
Proof.
  intros [city0 [X [Hin0 Ha0]]].
  destruct files as [| f files'] eqn:Ef.
  - exists [], [], X. split; [reflexivity |]. split; [reflexivity |].
    split; [exists city0; auto |]. cbn. intros i Hi. lia.
  - rewrite <- Ef.
    assert (Hf : files <> []) by (rewrite Ef; discriminate).
    assert (Hn : city_names <> []) by (intros ->; destruct Hin0).
    destruct (city_mode_unfold city_names files Hf Hn) as [warn [_ [_ Hcm]]].
    pose proof (coords_of_nonempty _ _ _ Hin0 Ha0) as Hne.
    destruct (coords_of arcgis set_list city_names) as [| [k0 v0] d'] eqn:Ec;
      [contradiction |].
    cbn [is_empty] in Hcm.
    destruct (city_loop_ok city_names k0 v0 d' (seq 0 (List.length files)) [] Hn)
      as [ts [Hloop [Hlen Hnth]]].
    rewrite Hloop in Hcm. cbn [rbind app] in Hcm.
    exists ts. eexists. exists v0.
    split; [exact Hcm |]. split; [rewrite Hlen; apply length_seq |].
    split.
    + exists k0. apply coords_of_In. rewrite Ec. left. reflexivity.
    + intros i Hi.
      destruct (Hnth i i (nth_error_seq0 _ _ Hi)) as [city [Hc Ht]].
      exists city. split; [exact Hc |].
      rewrite Ht, <- Ec, coords_of_get by exact (nth_error_In _ _ Hc).
      reflexivity.
Qed.

(** No name resolved: no target at all, and the error message. *)
Lemma city_mode_none_resolved (city_names : list string)
    (files : list UploadedFile) :
  (forall city, In city city_names -> arcgis city = None) ->
  exists msgs,
    city_mode arcgis set_list city_names files = Ok ([], msgs)
    /\ (forall s, ~ In (st_success s) msgs)
    /\ (files <> [] -> city_names <> [] -> In (st_error not_found_msg) msgs).
Proof.
  intros Hnone.
  destruct files as [| f files'] eqn:Ef.
  - exists []. split; [reflexivity |]. split; [intros s [] |]. contradiction.
  - rewrite <- Ef. assert (Hf : files <> []) by (rewrite Ef; discriminate).
    destruct city_names as [| c names] eqn:En.
    + exists [st_warning no_cities_msg]. rewrite Ef.
      split; [reflexivity |].
      split; [intros s [H | []]; discriminate H | contradiction].
    + rewrite <- En in *.
      assert (Hn : city_names <> []) by (rewrite En; discriminate).
      destruct (city_mode_unfold city_names files Hf Hn)
        as [warn [Hns [_ Hcm]]].
      rewrite (coords_of_empty city_names Hnone) in Hcm. cbn [is_empty] in Hcm.
      eexists. split; [exact Hcm |]. split.
      * intros s Hin. apply in_app_or in Hin.
        destruct Hin as [Hin | [Hin | []]]; [exact (Hns s Hin) | discriminate].
      * intros _ _. apply in_or_app. right. left. reflexivity.
Qed.

End CityFacts.

Lemma all_nth_error_repeat {A : Type} (l : list A) (x : A) :
  (forall i, (i < List.length l)%nat -> nth_error l i = Some x) ->
  l = repeat x (List.length l).
Proof.
  induction l as [| y rest IH]; intros H; [reflexivity |].
  cbn. f_equal.
  - specialize (H 0%nat). cbn in H. assert (Some y = Some x) by (apply H; lia).
    congruence.
  - apply IH. intros i Hi. apply (H (S i)). cbn. lia.
Qed.

Ltac target_at H i :=
  let city := fresh "city" in
  let Hc := fresh "Hc" in
  let Ht := fresh "Ht" in
  destruct (H i ltac:(lia)) as [city [Hc Ht]];
  cbn in Hc; injection Hc as <-.

(** C3.  In city mode with a non-empty list of names, file [i] is given
    the name [city_names[i mod len(city_names)]] (duplicates in the list
    kept), and when that name resolved, its coordinate is the [i]-th
    target.  With names [[a, b]] resolved to [X] and [Y] and five files
    the targets are [[X, Y, X, Y, X]]. *)
Theorem city_mode_cyclic
    (arcgis : string -> option Coordinate)
    (set_list : list string -> list string)
    (city_names : list string) (uploaded_files : list UploadedFile) :
  (forall l x, In x (set_list l) <-> In x l) ->
  city_names <> [] ->
  exists final_targets msgs,
    city_mode arcgis set_list city_names uploaded_files
    = Ok (final_targets, msgs)
    /\ (forall i, (i < List.length uploaded_files)%nat ->
          exists city,
            nth_error city_names (i mod List.length city_names) = Some city
            /\ forall X, arcgis city = Some X ->
                         nth_error final_targets i = Some X)
    /\ (forall a b X Y,
          city_names = [a; b] -> arcgis a = Some X -> arcgis b = Some Y ->
          List.length uploaded_files = 5%nat ->
          final_targets = [X; Y; X; Y; X]).
Proof.
  intros Hset Hne.
  destruct (resolved_or_not arcgis city_names) as [Hsome | Hnone].
  - destruct (city_mode_some_resolved arcgis set_list Hset city_names
                uploaded_files Hsome)
      as [ft [msgs [fallback [Hcm [Hlen [_ Hnth]]]]]].
    exists ft, msgs. split; [exact Hcm |]. split.
    + intros i Hi. destruct (Hnth i Hi) as [city [Hc Ht]].
      exists city. split; [exact Hc |]. intros X HX.
      rewrite Ht, HX. reflexivity.
    + intros a b X Y -> Ha Hb H5. rewrite H5 in *.
      target_at Hnth 0%nat. target_at Hnth 1%nat. target_at Hnth 2%nat.
      target_at Hnth 3%nat. target_at Hnth 4%nat.
      rewrite ?Ha, ?Hb in *.
      destruct ft as [| t0 [| t1 [| t2 [| t3 [| t4 [| t5 ft]]]]]];
        try discriminate Hlen.
      cbn in *. congruence.
  - destruct (city_mode_none_resolved arcgis set_list Hset city_names
                uploaded_files Hnone) as [msgs [Hcm _]].
    exists [], msgs. split; [exact Hcm |]. split.
    + intros i Hi.
      destruct (nth_error_cyclic city_names i Hne) as [city [Hc Hin]].
      exists city. split; [exact Hc |]. intros X HX.
      rewrite (Hnone city Hin) in HX. discriminate HX.
    + intros a b X Y -> Ha _ _.
      rewrite (Hnone a (or_introl eq_refl)) in Ha. discriminate Ha.
Qed.

Lemma city_mode_cyclic_witness :
  exists final_targets msgs,
    city_mode example_geocoder (nodup string_dec)
      ["Pasadena CA"; "Arcadia CA"]%string five_files
    = Ok (final_targets, msgs)
    /\ final_targets
       = [(34.1478, -118.1445); (34.1397, -118.0353); (34.1478, -118.1445);
          (34.1397, -118.0353); (34.1478, -118.1445)].
Proof.
  destruct (city_mode_cyclic example_geocoder (nodup string_dec)
              ["Pasadena CA"; "Arcadia CA"]%string five_files
              (nodup_In string_dec) ltac:(discriminate))
    as [ft [msgs [Hcm [_ Hex]]]].
  exists ft, msgs. split; [exact Hcm |].
  apply (Hex _ _ _ _ eq_refl eq_refl eq_refl eq_refl).
Defined.

(** C4.  In city mode, when at least one name resolved, the call returns
    normally, and there is one coordinate [fallback], the coordinate of
    some resolved name of the list (the first value of [unique_coords]),
    that every file whose cyclic name did not resolve receives.  With
    names [[a, b]], [a] resolved to [X] and [b] unresolved, every file
    receives [X]. *)
Theorem city_mode_fallback
    (arcgis : string -> option Coordinate)
    (set_list : list string -> list string)
    (city_names : list string) (uploaded_files : list UploadedFile) :
  (forall l x, In x (set_list l) <-> In x l) ->
  (exists city X, In city city_names /\ arcgis city = Some X) ->
  exists final_targets msgs fallback,
    city_mode arcgis set_list city_names uploaded_files
    = Ok (final_targets, msgs)
    /\ (exists name, In name city_names /\ arcgis name = Some fallback)
    /\ (forall i city,
          (i < List.length uploaded_files)%nat ->
          nth_error city_names (i mod List.length city_names) = Some city ->
          arcgis city = None ->
          nth_error final_targets i = Some fallback)
    /\ (forall a b X,
          city_names = [a; b] -> arcgis a = Some X -> arcgis b = None ->
          final_targets = repeat X (List.length uploaded_files)).
Proof.
  intros Hset Hsome.
  destruct (city_mode_some_resolved arcgis set_list Hset city_names
              uploaded_files Hsome)
    as [ft [msgs [fallback [Hcm [Hlen [Hfb Hnth]]]]]].
  exists ft, msgs, fallback. split; [exact Hcm |]. split; [exact Hfb |]. split.
  - intros i city Hi Hc Hnone. destruct (Hnth i Hi) as [city' [Hc' Ht]].
    rewrite Hc in Hc'. injection Hc' as <-. rewrite Ht, Hnone. reflexivity.
  - intros a b X -> Ha Hb.
    assert (HfX : fallback = X).
    { destruct Hfb as [name [[<- | [<- | []]] Hname]]; congruence. }
    subst fallback. rewrite <- Hlen. apply all_nth_error_repeat.
    intros i Hi. rewrite Hlen in Hi.
    destruct (Hnth i Hi) as [city [Hc Ht]]. rewrite Ht.
    apply nth_error_In in Hc. destruct Hc as [<- | [<- | []]].
    + rewrite Ha. reflexivity.
    + rewrite Hb. reflexivity.
Qed.

Lemma city_mode_fallback_witness :
  exists final_targets msgs,
    city_mode example_geocoder (nodup string_dec)
      ["Pasadena CA"; "Atlantis"]%string five_files
    = Ok (final_targets, msgs)
    /\ final_targets = repeat (34.1478, -118.1445) 5.
Proof.
  destruct (city_mode_fallback example_geocoder (nodup string_dec)
              ["Pasadena CA"; "Atlantis"]%string five_files
              (nodup_In string_dec)
              (ex_intro _ "Pasadena CA"%string
                 (ex_intro _ (34.1478, -118.1445)
                    (conj (or_introl eq_refl) eq_refl))))
    as [ft [msgs [fallback [Hcm [_ [_ Hex]]]]]].
  exists ft, msgs. split; [exact Hcm |].
  apply (Hex _ _ _ eq_refl eq_refl eq_refl).
Defined.

(** C5.  In city mode, when no name of the list resolved, no target is
    produced: the result carries an empty target list and no success
    message, the tagging step of line 190 is not offered, and, with at
    least one file and one name, the error message of line 180 is shown. *)
Theorem city_mode_nothing_resolved
    (arcgis : string -> option Coordinate)
    (set_list : list string -> list string)
    (city_names : list string) (uploaded_files : list UploadedFile) :
  (forall l x, In x (set_list l) <-> In x l) ->
  (forall city, In city city_names -> arcgis city = None) ->
  exists msgs,
    city_mode arcgis set_list city_names uploaded_files = Ok ([], msgs)
    /\ tagging_offered uploaded_files [] = false
    /\ (forall s, ~ In (st_success s) msgs)
    /\ (uploaded_files <> [] -> city_names <> [] ->
        In (st_error not_found_msg) msgs)
    /\ (forall rand rnd start last_clicked radius k,
          exists msgs',
            script rand rnd arcgis set_list uploaded_files ListOfCities
              start last_clicked radius city_names k
            = Ok (mkPage [] msgs' false, k)).
Proof.
  intros Hset Hnone.
  destruct (city_mode_none_resolved arcgis set_list Hset city_names
              uploaded_files Hnone) as [msgs [Hcm [Hns Herr]]].
  assert (Htag : tagging_offered uploaded_files [] = false)
    by (unfold tagging_offered; cbn; apply andb_false_r).
  exists msgs. split; [exact Hcm |]. split; [exact Htag |].
  split; [exact Hns |]. split; [exact Herr |].
  intros rand rnd start last_clicked radius k. unfold script.
  destruct (negb (is_empty uploaded_files)
            && (MAX_FILES <? List.length uploaded_files)%nat).
  - eexists. reflexivity.
  - exists msgs. unfold bind, lift, ret. rewrite Hcm. cbn [fst snd].
    rewrite Htag. reflexivity.
Qed.

Lemma city_mode_nothing_resolved_witness :
  exists msgs,
    city_mode example_geocoder (nodup string_dec) ["Atlantis"]%string five_files
    = Ok ([], msgs)
    /\ tagging_offered five_files [] = false
    /\ In (st_error not_found_msg) msgs.
Proof.
  assert (Hnone : forall city, In city ["Atlantis"]%string ->
                               example_geocoder city = None).
  { intros city [<- | []]. reflexivity. }
  destruct (city_mode_nothing_resolved example_geocoder (nodup string_dec)
              ["Atlantis"]%string five_files (nodup_In string_dec) Hnone)
    as [msgs [Hcm [Htag [_ [Herr _]]]]].
  exists msgs. split; [exact Hcm |]. split; [exact Htag |].
  apply Herr; discriminate.
Defined.

(** C7.  Whenever targets are produced there is exactly one per uploaded
    file, in file order.  Pin mode (radius [<= 0], or draws in [[0,1)] and
    a nonzero [cos (radians lat)]): [N] targets, the [i]-th being the
    sampler's result for file [i].  City mode with at least one resolved
    name: [N] targets, the [i]-th being the coordinate of the [i]-th cyclic
    name, or, if that name did not resolve, the coordinate of a resolved
    name; no file is left out. *)
Theorem one_target_per_file :
  (forall (rand : nat -> R) (rnd : R -> R) (start : Coordinate)
          (last_clicked : option Coordinate) (radius lat lon : R)
          (uploaded_files : list UploadedFile) (k : nat),
      clicked rnd start last_clicked = Ok (lat, lon) ->
      radius <= 0
      \/ ((forall j, 0 <= rand j < 1) /\ cos (math_radians lat) <> 0) ->
      exists final_targets k',
        pin_mode rand rnd start last_clicked radius uploaded_files k
        = Ok (final_targets, k')
        /\ List.length final_targets = List.length uploaded_files
        /\ forall i, (i < List.length uploaded_files)%nat ->
             exists p ki ki',
               nth_error final_targets i = Some p
               /\ get_random_point_in_radius rand lat lon radius ki
                  = Ok (p, ki'))
  /\ (forall (arcgis : string -> option Coordinate)
            (set_list : list string -> list string)
            (city_names : list string) (uploaded_files : list UploadedFile),
        (forall l x, In x (set_list l) <-> In x l) ->
        (exists city X, In city city_names /\ arcgis city = Some X) ->
        exists final_targets msgs,
          city_mode arcgis set_list city_names uploaded_files
          = Ok (final_targets, msgs)
          /\ List.length final_targets = List.length uploaded_files
          /\ forall i, (i < List.length uploaded_files)%nat ->
               exists city c,
                 nth_error city_names (i mod List.length city_names) = Some city
                 /\ nth_error final_targets i = Some c
                 /\ (arcgis city = Some c
                     \/ (arcgis city = None
                         /\ exists name,
                              In name city_names /\ arcgis name = Some c))).
Proof.
  split.
  - intros rand rnd start last_clicked radius lat lon files k Hc Hcase.
    destruct (Rle_dec radius 0) as [Hle | Hgt].
    + exists (repeat (lat, lon) (List.length files)), k.
      split; [apply (pin_mode_degenerate _ _ _ _ _ _ _ _ _ Hc Hle) |].
      split; [apply repeat_length |].
      intros i Hi. exists (lat, lon), k, k.
      split; [apply nth_error_repeat; exact Hi | apply sample_degenerate; exact Hle].
    + destruct Hcase as [Hle | [Hrand Hcos]]; [contradiction |].
      assert (Hr : 0 < radius) by lra.
      exists (map (nth_sample rand lat lon radius k) (seq 0 (List.length files))),
        (k + 2 * List.length files)%nat.
      split; [apply (pin_mode_positive _ _ _ _ _ _ _ _ _ Hc Hr Hrand Hcos) |].
      split; [rewrite length_map; apply length_seq |].
      intros i Hi.
      exists (nth_sample rand lat lon radius k i), (k + 2 * i)%nat,
        (k + 2 * i + 2)%nat.
      split; [| apply sample_at; assumption].
      rewrite nth_error_map, nth_error_seq0 by exact Hi. reflexivity.
  - intros arcgis set_list city_names files Hset Hsome.
    destruct (city_mode_some_resolved arcgis set_list Hset city_names
                files Hsome)
      as [ft [msgs [fallback [Hcm [Hlen [Hfb Hnth]]]]]].
    exists ft, msgs. split; [exact Hcm |]. split; [exact Hlen |].
    intros i Hi. destruct (Hnth i Hi) as [city [Hc Ht]].
    exists city. destruct (arcgis city) as [c |] eqn:Ea.
    + exists c. auto.
    + exists fallback. split; [exact Hc |]. split; [exact Ht |]. right. auto.
Qed.

Lemma one_target_per_file_witness :
  (exists final_targets k',
      pin_mode (fun _ => 1 / 2) (fun x => x) (34.05, -118.24) None 0
        [mkFile "a.jpg" []; mkFile "b.jpg" []; mkFile "c.webp" []] 0%nat
      = Ok (final_targets, k')
      /\ List.length final_targets = 3%nat)
  /\ (exists final_targets msgs,
        city_mode example_geocoder (nodup string_dec)
          ["Pasadena CA"; "Atlantis"]%string five_files
        = Ok (final_targets, msgs)
        /\ List.length final_targets = 5%nat).
Proof.
  destruct one_target_per_file as [Hpin Hcity]. split.
  - assert (Hr : 0 <= 0) by lra.
    destruct (Hpin (fun _ => 1 / 2) (fun x => x) (34.05, -118.24) None 0 34.05 (-118.24)
                [mkFile "a.jpg" []; mkFile "b.jpg" []; mkFile "c.webp" []]
                0%nat eq_refl (or_introl Hr))
      as [ft [k' [Hpm [Hlen _]]]].
    exists ft, k'. split; [exact Hpm | exact Hlen].
  - destruct (Hcity example_geocoder (nodup string_dec)
                ["Pasadena CA"; "Atlantis"]%string five_files
                (nodup_In string_dec)
                (ex_intro _ "Pasadena CA"%string
                   (ex_intro _ (34.1478, -118.1445)
                      (conj (or_introl eq_refl) eq_refl))))
      as [ft [msgs [Hcm [Hlen _]]]].
    exists ft, msgs. split; [exact Hcm | exact Hlen].
Defined.

(** ** Writing the tags *)

Lemma gps_tags_fields (lat lon : R) :
  GPSLatitude (gps_tags (lat, lon)) = Rabs lat
  /\ (0 <= lat -> GPSLatitudeRef (gps_tags (lat, lon)) = "N"%string)
  /\ (lat < 0 -> GPSLatitudeRef (gps_tags (lat, lon)) = "S"%string)
  /\ GPSLongitude (gps_tags (lat, lon)) = Rabs lon
  /\ (0 <= lon -> GPSLongitudeRef (gps_tags (lat, lon)) = "E"%string)
  /\ (lon < 0 -> GPSLongitudeRef (gps_tags (lat, lon)) = "W"%string).
Proof.
  unfold gps_tags. cbn.
  destruct (Rge_dec lat 0), (Rge_dec lon 0);
    repeat split; intros; try reflexivity; lra.
Qed.

Section TagFacts.

Variable set_tags : string -> GPSTags -> bool.
Variable temp_dir : string.

Lemma file_map_nth (files : list UploadedFile) (s i : nat) (f : UploadedFile) :
  nth_error files i = Some f ->
  nth_error (combine (seq s (List.length files)) (map (file_path temp_dir) files)) i
  = Some ((s + i)%nat, file_path temp_dir f).
Proof.
  revert s i. induction files as [| f0 rest IH]; intros s [| i] H;
    try discriminate H.
  - cbn in *. injection H as ->. rewrite Nat.add_0_r. reflexivity.
  - cbn in *. rewrite (IH (S s) i H). do 2 f_equal. lia.
Qed.

Lemma tag_loop_ok (file_map : list (nat * string)) (targets : list Coordinate)
    (calls : list (string * GPSTags)) (processed : list string) :
  (forall i path, In (i, path) file_map -> (i < List.length targets)%nat) ->
  exists processed',
    tag_loop set_tags file_map targets calls processed
    = Ok (calls
          ++ map (fun e => (snd e, gps_tags (nth (fst e) targets (0, 0))))
               file_map,
          processed').
Proof.
  revert calls processed.
  induction file_map as [| [i path] rest IH]; intros calls processed Hin.
  - exists processed. cbn. rewrite app_nil_r. reflexivity.
  - cbn [tag_loop].
    assert (Hi : (i < List.length targets)%nat)
      by (apply (Hin i path); left; reflexivity).
    rewrite (nth_error_nth' targets (0, 0) Hi).
    destruct (IH (calls ++ [(path, gps_tags (nth i targets (0, 0)))])
                (if set_tags path (gps_tags (nth i targets (0, 0)))
                 then processed ++ [path] else processed))
      as [processed' Hloop].
    { intros i' path' H. apply (Hin i' path'). right. exact H. }
    exists processed'. rewrite Hloop, <- app_assoc. reflexivity.
Qed.

End TagFacts.

(** C9.  With a target for every file, [process_images] makes one
    [set_tags] call per file, in order, and the call for file [i] with
    target [(lat, lon)] carries [GPSLatitude = |lat|] with reference [N]
    for [lat >= 0] and [S] for [lat < 0], and [GPSLongitude = |lon|] with
    reference [E] for [lon >= 0] and [W] for [lon < 0].  The target
    [(34.05, -118.24)] is written as 34.05 N, 118.24 W. *)
Theorem tags_sign_magnitude
    (set_tags : string -> GPSTags -> bool) (temp_dir : string)
    (files : list UploadedFile) (targets : list Coordinate) :
  (List.length files <= List.length targets)%nat ->
  exists calls processed_paths,
    process_images set_tags temp_dir files targets = Ok (calls, processed_paths)
    /\ List.length calls = List.length files
    /\ (forall i f lat lon,
          nth_error files i = Some f -> nth_error targets i = Some (lat, lon) ->
          exists tags,
            nth_error calls i = Some (file_path temp_dir f, tags)
            /\ GPSLatitude tags = Rabs lat
            /\ (0 <= lat -> GPSLatitudeRef tags = "N"%string)
            /\ (lat < 0 -> GPSLatitudeRef tags = "S"%string)
            /\ GPSLongitude tags = Rabs lon
            /\ (0 <= lon -> GPSLongitudeRef tags = "E"%string)
            /\ (lon < 0 -> GPSLongitudeRef tags = "W"%string))
    /\ gps_tags (34.05, -118.24) = mkTags 34.05 "N" 118.24 "W".
Proof.
  intros Hlen. unfold process_images.
  destruct (tag_loop_ok set_tags
              (combine (seq 0 (List.length files)) (map (file_path temp_dir) files))
              targets [] [])
    as [processed Hloop].
  { intros i path Hin. apply in_combine_l in Hin. apply in_seq in Hin. lia. }
  eexists. exists processed. split; [exact Hloop |]. cbn [app]. split.
  - rewrite length_map, length_combine, length_seq, length_map. lia.
  - split.
    + intros i f lat lon Hf Ht. exists (gps_tags (lat, lon)).
      split; [| apply gps_tags_fields].
      rewrite nth_error_map, (file_map_nth temp_dir files 0 i f Hf).
      cbn [option_map fst snd Nat.add].
      erewrite nth_error_nth by exact Ht. reflexivity.
    + unfold gps_tags.
      destruct (Rge_dec 34.05 0) as [_ | H]; [| exfalso; lra].
      destruct (Rge_dec (-118.24) 0) as [H | _]; [exfalso; lra |].
      rewrite (Rabs_right 34.05) by lra.
      rewrite (Rabs_left (-118.24)) by lra.
      f_equal. lra.
Qed.

Lemma tags_sign_magnitude_witness :
  exists calls processed_paths,
    process_images (fun _ _ => true) "/tmp/x"
      [mkFile "a.jpg" []; mkFile "b.jpg" []; mkFile "c.webp" []]
      (repeat (34.05, -118.24) 3)
    = Ok (calls, processed_paths)
    /\ List.length calls = 3%nat
    /\ nth_error calls 0 = Some ("/tmp/x/a.jpg"%string, mkTags 34.05 "N" 118.24 "W").
Proof.
  destruct (tags_sign_magnitude (fun _ _ => true) "/tmp/x"
              [mkFile "a.jpg" []; mkFile "b.jpg" []; mkFile "c.webp" []]
              (repeat (34.05, -118.24) 3) (le_n 3))
    as [calls [processed [Hp [Hlen [Hcalls Hex]]]]].
  exists calls, processed. split; [exact Hp |]. split; [exact Hlen |].
  destruct (Hcalls 0%nat (mkFile "a.jpg" []) 34.05 (-118.24) eq_refl eq_refl)
    as [tags [Hnth [Hlat [HN [_ [Hlon [_ HW]]]]]]].
  rewrite Hnth. f_equal. f_equal.
  destruct tags as [la lar lo lor]. cbn in *.
  rewrite Hlat, Hlon, (HN ltac:(lra)), (HW ltac:(lra)).
  rewrite (Rabs_right 34.05) by lra.
  rewrite (Rabs_left (-118.24)) by lra.
  f_equal. lra.
Defined.

(** ** The page around the two modes *)

Lemma script_too_many (rand : nat -> R) (rnd : R -> R) (arcgis : string -> option Coordinate)
    (set_list : list string -> list string) (files : list UploadedFile)
    (mode : Mode) (start : Coordinate) (last_clicked : option Coordinate)
    (radius : R) (city_names : list string) (k : nat) :
  (MAX_FILES < List.length files)%nat ->
  script rand rnd arcgis set_list files mode start last_clicked radius city_names k
  = Ok (mkPage [] [st_error too_many_msg] false, k).
Proof.
  intros Hmany. unfold script.
  destruct files as [| f rest]; [cbn in Hmany; lia |].
  cbn [is_empty negb andb].
  apply Nat.ltb_lt in Hmany. rewrite Hmany. reflexivity.
Qed.

Lemma script_pin (rand : nat -> R) (rnd : R -> R) (arcgis : string -> option Coordinate)
    (set_list : list string -> list string) (files : list UploadedFile)
    (start : Coordinate) (last_clicked : option Coordinate)
    (radius : R) (city_names : list string) (k k' : nat)
    (targets : list Coordinate) :
  (List.length files <= MAX_FILES)%nat ->
  pin_mode rand rnd start last_clicked radius files k = Ok (targets, k') ->
  script rand rnd arcgis set_list files PinOnMap start last_clicked radius
    city_names k
  = Ok (mkPage targets [] (tagging_offered files targets), k').
Proof.
  intros Hfew Hpin. unfold script.
  apply Nat.ltb_ge in Hfew. rewrite Hfew, andb_false_r.
  unfold bind, ret. rewrite Hpin. reflexivity.
Qed.

Lemma script_city (rand : nat -> R) (rnd : R -> R) (arcgis : string -> option Coordinate)
    (set_list : list string -> list string) (files : list UploadedFile)
    (start : Coordinate) (last_clicked : option Coordinate)
    (radius : R) (city_names : list string) (k : nat)
    (targets : list Coordinate) (msgs : list message) :
  (List.length files <= MAX_FILES)%nat ->
  city_mode arcgis set_list city_names files = Ok (targets, msgs) ->
  script rand rnd arcgis set_list files ListOfCities start last_clicked radius
    city_names k
  = Ok (mkPage targets msgs (tagging_offered files targets), k).
Proof.
  intros Hfew Hcity. unfold script.
  apply Nat.ltb_ge in Hfew. rewrite Hfew, andb_false_r.
  unfold bind, lift, ret. rewrite Hcity. reflexivity.
Qed.

(** ** Further properties of the tags *)

(** X4.  The written magnitudes are never negative, each reference is
    one of its two letters, and magnitude and letter give the coordinate
    back: the magnitude itself under [N] (or [E]), its opposite under [S]
    (or [W]). *)
Theorem gps_tags_round_trip (lat lon : R) :
  let t := gps_tags (lat, lon) in
  0 <= GPSLatitude t /\ 0 <= GPSLongitude t
  /\ (GPSLatitudeRef t = "N"%string \/ GPSLatitudeRef t = "S"%string)
  /\ (GPSLongitudeRef t = "E"%string \/ GPSLongitudeRef t = "W"%string)
  /\ (if string_dec (GPSLatitudeRef t) "N" then GPSLatitude t
      else - GPSLatitude t) = lat
  /\ (if string_dec (GPSLongitudeRef t) "E" then GPSLongitude t
      else - GPSLongitude t) = lon.
Proof.
  unfold gps_tags. cbn.
  split; [apply Rabs_pos |]. split; [apply Rabs_pos |].
  destruct (Rge_dec lat 0) as [Hlat | Hlat], (Rge_dec lon 0) as [Hlon | Hlon];
    cbn; repeat split; auto;
    try (rewrite Rabs_right by lra; reflexivity);
    try (rewrite Rabs_left by lra; lra).
Qed.

(** ** Further properties of the city mode *)

Section CityMore.

Variable arcgis : string -> option Coordinate.
Variable set_list : list string -> list string.

(** With a file, a name and a non-empty [unique_coords]: one target per
    file, read from [unique_coords] or else its first value. *)
Lemma city_mode_shape (city_names : list string) (files : list UploadedFile)
    (k0 : string) (v0 : Coordinate) (d' : dict) :
  files <> [] -> city_names <> [] ->
  coords_of arcgis set_list city_names = (k0, v0) :: d' ->
  exists ts msgs,
    city_mode arcgis set_list city_names files = Ok (ts, msgs)
    /\ List.length ts = List.length files
    /\ forall i, (i < List.length files)%nat ->
         exists city,
           nth_error city_names (i mod List.length city_names) = Some city
           /\ nth_error ts i
              = Some match dict_get ((k0, v0) :: d') city with
                     | Some c => c
                     | None => v0
                     end.
Proof.
  intros Hf Hn Ec.
  destruct (city_mode_unfold arcgis set_list city_names files Hf Hn)
    as [warn [_ [_ Hcm]]].
  rewrite Ec in Hcm. cbn [is_empty] in Hcm.
  destruct (city_loop_ok city_names k0 v0 d' (seq 0 (List.length files)) [] Hn)
    as [ts [Hloop [Hlen Hnth]]].
  rewrite Hloop in Hcm. cbn [rbind app] in Hcm.
  exists ts. eexists. split; [exact Hcm |].
  split; [rewrite Hlen; apply length_seq |].
  intros i Hi. apply (Hnth i i). apply nth_error_seq0. exact Hi.
Qed.

Lemma city_mode_returns (city_names : list string) (files : list UploadedFile) :
  exists final_targets msgs,
    city_mode arcgis set_list city_names files = Ok (final_targets, msgs)
    /\ (final_targets = [] \/ List.length final_targets = List.length files)
    /\ forall i, (i + List.length city_names < List.length files)%nat ->
         nth_error final_targets (i + List.length city_names)
         = nth_error final_targets i.
Proof.
  destruct files as [| f files'] eqn:Ef.
  - exists [], []. split; [reflexivity |]. split; [left; reflexivity |].
    cbn. intros i Hi. lia.
  - rewrite <- Ef. assert (Hf : files <> []) by (rewrite Ef; discriminate).
    destruct city_names as [| c names'] eqn:En.
    + exists [], [st_warning no_cities_msg]. rewrite Ef.
      split; [reflexivity |]. split; [left; reflexivity |].
      intros i _. destruct i; reflexivity.
    + rewrite <- En. assert (Hn : city_names <> []) by (rewrite En; discriminate).
      destruct (coords_of arcgis set_list city_names) as [| [k0 v0] d'] eqn:Ec.
      * destruct (city_mode_unfold arcgis set_list city_names files Hf Hn)
          as [warn [_ [_ Hcm]]].
        rewrite Ec in Hcm. cbn [is_empty] in Hcm.
        exists []. eexists. split; [exact Hcm |]. split; [left; reflexivity |].
        intros i _. destruct i, (List.length city_names); reflexivity.
      * destruct (city_mode_shape city_names files k0 v0 d' Hf Hn Ec)
          as [ts [msgs [Hcm [Hlen Hnth]]]].
        exists ts, msgs. split; [exact Hcm |]. split; [right; exact Hlen |].
        intros i Hi.
        destruct (Hnth (i + List.length city_names)%nat Hi) as [city [Hc Ht]].
        destruct (Hnth i ltac:(lia)) as [city' [Hc' Ht']].
        assert (Hlen0 : List.length city_names <> 0%nat)
          by (rewrite En; discriminate).
        replace ((i + List.length city_names) mod List.length city_names)%nat
          with (i mod List.length city_names)%nat in Hc.
        2:{ rewrite <- (Nat.mul_1_l (List.length city_names)) at 2.
            rewrite Nat.Div0.mod_add. reflexivity. }
        rewrite Hc in Hc'. injection Hc' as <-. rewrite Ht, Ht'. reflexivity.
Qed.

Lemma dict_set_cons (k0 k : string) (v0 v : Coordinate) (d : dict) :
  exists v0' d', dict_set ((k0, v0) :: d) k v = (k0, v0') :: d'.
Proof.
  cbn. destruct (string_dec k0 k); eauto.
Qed.

Lemma lookup_cities_keeps_head (cities : list string) (k0 : string)
    (v0 : Coordinate) (d : dict) (failed : list string) :
  exists v0' d',
    fst (lookup_cities arcgis cities ((k0, v0) :: d) failed) = (k0, v0') :: d'.
Proof.
  revert v0 d failed. induction cities as [| c rest IH]; intros v0 d failed.
  - cbn. eauto.
  - cbn [lookup_cities]. destruct (arcgis c) as [latlng |].
    + destruct (dict_set_cons k0 c v0 latlng d) as [v0' [d' ->]]. apply IH.
    + apply IH.
Qed.

Lemma lookup_cities_first (cities : list string) (failed : list string) :
  match fst (lookup_cities arcgis cities [] failed) with
  | [] => find (resolved arcgis) cities = None
  | (k0, _) :: _ =>
      find (resolved arcgis) cities = Some k0
  end.
Proof.
  revert failed. induction cities as [| c rest IH]; intros failed.
  - reflexivity.
  - cbn [lookup_cities find dict_set].
    assert (Hres : resolved arcgis c = match arcgis c with Some _ => true | None => false end)
      by reflexivity.
    rewrite Hres. destruct (arcgis c) as [latlng |].
    + destruct (lookup_cities_keeps_head rest c latlng [] failed)
        as [v0' [d' ->]].
      reflexivity.
    + apply IH.
Qed.

Lemma lookup_cities_failed (cities : list string) (d : dict)
    (failed : list string) :
  snd (lookup_cities arcgis cities d failed)
  = failed ++ filter (fun c => negb (resolved arcgis c)) cities.
Proof.
  revert d failed. induction cities as [| c rest IH]; intros d failed.
  - cbn. rewrite app_nil_r. reflexivity.
  - cbn [lookup_cities filter].
    assert (Hres : resolved arcgis c = match arcgis c with Some _ => true | None => false end)
      by reflexivity.
    rewrite Hres. destruct (arcgis c) as [latlng |]; cbn [negb].
    + apply IH.
    + rewrite IH, <- app_assoc. reflexivity.
Qed.

Lemma dict_set_keys_new (d : dict) (k : string) (v : Coordinate) :
  ~ In k (dict_keys d) -> dict_keys (dict_set d k v) = dict_keys d ++ [k].
Proof.
  induction d as [| [k0 v0] rest IH]; intros Hnin; [reflexivity |].
  cbn. destruct (string_dec k0 k) as [E | N].
  - exfalso. apply Hnin. left. exact E.
  - cbn. f_equal. apply IH. intros H. apply Hnin. right. exact H.
Qed.

Lemma lookup_cities_keys (cities : list string) (d : dict)
    (failed : list string) :
  NoDup cities ->
  (forall c, In c cities -> ~ In c (dict_keys d)) ->
  dict_keys (fst (lookup_cities arcgis cities d failed))
  = dict_keys d ++ filter (resolved arcgis) cities.
Proof.
  revert d failed. induction cities as [| c rest IH]; intros d failed Hnd Hfresh.
  - cbn. rewrite app_nil_r. reflexivity.
  - inversion Hnd as [| c' rest' Hc Hrest]; subst.
    cbn [lookup_cities filter].
    assert (Hres : resolved arcgis c = match arcgis c with Some _ => true | None => false end)
      by reflexivity.
    rewrite Hres. destruct (arcgis c) as [latlng |].
    + rewrite IH; [| exact Hrest |].
      * rewrite dict_set_keys_new by (apply Hfresh; left; reflexivity).
        rewrite <- app_assoc. reflexivity.
      * intros c' Hin.
        rewrite dict_set_keys_new by (apply Hfresh; left; reflexivity).
        intros H. apply in_app_or in H. destruct H as [H | [<- | []]].
        -- exact (Hfresh c' (or_intror Hin) H).
        -- exact (Hc Hin).
    + apply IH; [exact Hrest |]. intros c' Hin. apply Hfresh. right. exact Hin.
Qed.

End CityMore.

(** X5.  City mode never raises, whatever the geocoder answers and in
    whatever order the set of names is iterated: the modulo of line 184
    never divides by zero and no index is out of range.  The targets are
    either none at all or exactly one per uploaded file. *)
Theorem city_mode_never_raises
    (arcgis : string -> option Coordinate)
    (set_list : list string -> list string)
    (city_names : list string) (uploaded_files : list UploadedFile) :
  exists final_targets msgs,
    city_mode arcgis set_list city_names uploaded_files
    = Ok (final_targets, msgs)
    /\ (final_targets = []
        \/ List.length final_targets = List.length uploaded_files).
Proof.
  destruct (city_mode_returns arcgis set_list city_names uploaded_files)
    as [ft [msgs [Hcm [Hlen _]]]].
  exists ft, msgs. split; assumption.
Qed.

(** X6.  The targets repeat with the period of the list of names: file
    [i + len (city_names)] gets the same target as file [i], whether the
    name resolved or the fallback was used. *)
Theorem city_mode_periodic
    (arcgis : string -> option Coordinate)
    (set_list : list string -> list string)
    (city_names : list string) (uploaded_files : list UploadedFile)
    (final_targets : list Coordinate) (msgs : list message) (i : nat) :
  city_mode arcgis set_list city_names uploaded_files
  = Ok (final_targets, msgs) ->
  (i + List.length city_names < List.length uploaded_files)%nat ->
  nth_error final_targets (i + List.length city_names)
  = nth_error final_targets i.
Proof.
  intros Hcm Hi.
  destruct (city_mode_returns arcgis set_list city_names uploaded_files)
    as [ft [msgs' [Hcm' [_ Hper]]]].
  rewrite Hcm in Hcm'. injection Hcm' as -> _. apply Hper. exact Hi.
Qed.

Lemma city_mode_periodic_witness :
  exists final_targets msgs,
    city_mode example_geocoder (nodup string_dec)
      ["Pasadena CA"; "Atlantis"; "Arcadia CA"]%string five_files
    = Ok (final_targets, msgs)
    /\ nth_error final_targets 4 = nth_error final_targets 1.
Proof.
  destruct (city_mode_returns example_geocoder (nodup string_dec)
              ["Pasadena CA"; "Atlantis"; "Arcadia CA"]%string five_files)
    as [ft [msgs [Hcm _]]].
  exists ft, msgs. split; [exact Hcm |].
  apply (city_mode_periodic example_geocoder (nodup string_dec)
           ["Pasadena CA"; "Atlantis"; "Arcadia CA"]%string five_files
           ft msgs 1 Hcm).
  cbn. lia.
Defined.

(** X7.  The fallback of line 188 is the coordinate of the first name, in
    the order in which the set of names is iterated, whose lookup
    succeeded: every file whose cyclic name did not resolve gets that
    coordinate. *)
Theorem city_mode_fallback_is_first_resolved
    (arcgis : string -> option Coordinate)
    (set_list : list string -> list string)
    (city_names : list string) (uploaded_files : list UploadedFile)
    (first : string) (X : Coordinate) :
  (forall l x, In x (set_list l) <-> In x l) ->
  find (resolved arcgis) (set_list city_names) = Some first ->
  arcgis first = Some X ->
  exists final_targets msgs,
    city_mode arcgis set_list city_names uploaded_files
    = Ok (final_targets, msgs)
    /\ forall i city,
         (i < List.length uploaded_files)%nat ->
         nth_error city_names (i mod List.length city_names) = Some city ->
         arcgis city = None ->
         nth_error final_targets i = Some X.
Proof.
  intros Hset Hfind HX.
  destruct uploaded_files as [| f files'] eqn:Ef.
  - exists [], []. split; [reflexivity |]. cbn. intros i city Hi. lia.
  - rewrite <- Ef.
    assert (Hf : uploaded_files <> []) by (rewrite Ef; discriminate).
    assert (Hin : In first city_names).
    { apply Hset. apply (find_some _ _ Hfind). }
    assert (Hn : city_names <> []) by (intros ->; destruct Hin).
    pose proof (lookup_cities_first arcgis (set_list city_names) []) as Hhead.
    fold (coords_of arcgis set_list city_names) in Hhead.
    destruct (coords_of arcgis set_list city_names) as [| [k0 v0] d'] eqn:Ec.
    + rewrite Hfind in Hhead. discriminate Hhead.
    + rewrite Hfind in Hhead. injection Hhead as <-.
      assert (Hv0 : v0 = X).
      { assert (H0 : In (first, v0) (coords_of arcgis set_list city_names))
          by (rewrite Ec; left; reflexivity).
        destruct (coords_of_In arcgis set_list Hset _ _ _ H0) as [_ Hv].
        congruence. }
      subst v0.
      destruct (city_mode_shape arcgis set_list city_names uploaded_files
                  first X d' Hf Hn Ec)
        as [ts [msgs [Hcm [_ Hnth]]]].
      exists ts, msgs. split; [exact Hcm |].
      intros i city Hi Hc Hnone.
      destruct (Hnth i Hi) as [city' [Hc' Ht]].
      rewrite Hc in Hc'. injection Hc' as <-.
      rewrite Ht, <- Ec.
      rewrite (coords_of_get arcgis set_list Hset city_names city
                 (nth_error_In _ _ Hc)), Hnone.
      reflexivity.
Qed.

Lemma city_mode_fallback_is_first_resolved_witness :
  exists final_targets msgs,
    city_mode example_geocoder (fun l => rev (nodup string_dec l))
      ["Pasadena CA"; "Atlantis"; "Arcadia CA"]%string five_files
    = Ok (final_targets, msgs)
    /\ nth_error final_targets 1 = Some (34.1397, -118.0353).
Proof.
  assert (Hset : forall (l : list string) (x : string),
             In x (rev (nodup string_dec l)) <-> In x l).
  { intros l x. rewrite <- in_rev. apply nodup_In. }
  destruct (city_mode_fallback_is_first_resolved example_geocoder
              (fun l => rev (nodup string_dec l))
              ["Pasadena CA"; "Atlantis"; "Arcadia CA"]%string five_files
              "Arcadia CA"%string (34.1397, -118.0353) Hset eq_refl eq_refl)
    as [ft [msgs [Hcm Hfb]]].
  exists ft, msgs. split; [exact Hcm |].
  apply (Hfb 1%nat "Atlantis"%string); [cbn; lia | reflexivity | reflexivity].
Defined.

(** X8.  With a file and a name, and a set iterated without repetition,
    the messages are exactly these: a warning that lists the names whose
    lookup failed, in iteration order, when there is one; then either the
    error of line 180, when no lookup succeeded, or the success message
    that lists the names whose lookup succeeded, in iteration order. *)
Theorem city_mode_messages
    (arcgis : string -> option Coordinate)
    (set_list : list string -> list string)
    (city_names : list string) (uploaded_files : list UploadedFile) :
  uploaded_files <> [] -> city_names <> [] ->
  NoDup (set_list city_names) ->
  exists final_targets,
    city_mode arcgis set_list city_names uploaded_files
    = Ok (final_targets,
          (if is_empty
                (filter (fun c => negb (resolved arcgis c)) (set_list city_names))
           then []
           else [st_warning
                   ("Could not find: "
                    ++ String.concat ", "
                         (filter (fun c => negb (resolved arcgis c))
                            (set_list city_names)))])
          ++ [if is_empty (filter (resolved arcgis) (set_list city_names))
              then st_error not_found_msg
              else st_success
                     ("Ready to tag locations: "
                      ++ String.concat ", "
                           (filter (resolved arcgis) (set_list city_names)))]).
Proof.
  intros Hf Hn Hnd.
  pose proof (lookup_cities_failed arcgis (set_list city_names) [] []) as Hfail.
  pose proof (lookup_cities_keys arcgis (set_list city_names) [] [] Hnd
                (fun c _ H => H)) as Hkeys.
  cbn [app dict_keys map] in Hfail, Hkeys.
  unfold city_mode.
  destruct uploaded_files as [| f files']; [contradiction |].
  assert (Hemp : is_empty city_names = false)
    by (destruct city_names; [contradiction | reflexivity]).
  cbn [is_empty]. rewrite Hemp.
  destruct (lookup_cities arcgis (set_list city_names) [] [])
    as [unique_coords failed_cities] eqn:El.
  cbn [fst snd] in Hfail, Hkeys. rewrite <- Hfail, <- Hkeys.
  destruct unique_coords as [| [k0 v0] d'].
  - cbn [is_empty dict_keys map]. eexists. reflexivity.
  - cbn [is_empty dict_keys map].
    destruct (city_loop_ok city_names k0 v0 d'
                (seq 0 (List.length (f :: files'))) [] Hn)
      as [ts [Hloop _]].
    rewrite Hloop. cbn [rbind app]. exists ts. reflexivity.
Qed.

Lemma city_mode_messages_witness :
  exists final_targets,
    city_mode example_geocoder (nodup string_dec)
      ["Pasadena CA"; "Atlantis"; "Pasadena CA"]%string five_files
    = Ok (final_targets,
          [st_warning "Could not find: Atlantis";
           st_success "Ready to tag locations: Pasadena CA"]).
Proof.
  exact (city_mode_messages example_geocoder (nodup string_dec)
           ["Pasadena CA"; "Atlantis"; "Pasadena CA"]%string five_files
           ltac:(discriminate) ltac:(discriminate)
           (NoDup_nodup string_dec _)).
Defined.

(** ** Further properties of process_images *)

Section TagMore.

Variable set_tags : string -> GPSTags -> bool.
Variable temp_dir : string.

Lemma tag_loop_exact (file_map : list (nat * string)) (targets : list Coordinate)
    (calls : list (string * GPSTags)) (processed : list string) :
  (forall i path, In (i, path) file_map -> (i < List.length targets)%nat) ->
  tag_loop set_tags file_map targets calls processed
  = Ok (calls ++ calls_of file_map targets,
        processed
        ++ map fst (filter (fun c => set_tags (fst c) (snd c))
                      (calls_of file_map targets))).
Proof.
  revert calls processed.
  induction file_map as [| [i path] rest IH]; intros calls processed Hin.
  - cbn. rewrite !app_nil_r. reflexivity.
  - cbn [tag_loop].
    assert (Hi : (i < List.length targets)%nat)
      by (apply (Hin i path); left; reflexivity).
    rewrite (nth_error_nth' targets (0, 0) Hi).
    rewrite IH by (intros i' path' H; apply (Hin i' path'); right; exact H).
    cbn [calls_of map filter fst snd].
    fold (calls_of rest targets).
    rewrite <- app_assoc. cbn [app].
    destruct (set_tags path (gps_tags (nth i targets (0, 0)))).
    + rewrite <- app_assoc. reflexivity.
    + reflexivity.
Qed.

Lemma process_images_exact (files : list UploadedFile)
    (targets : list Coordinate) :
  (List.length files <= List.length targets)%nat ->
  let calls :=
    calls_of (combine (seq 0 (List.length files))
                (map (file_path temp_dir) files)) targets in
  process_images set_tags temp_dir files targets
  = Ok (calls, map fst (filter (fun c => set_tags (fst c) (snd c)) calls))
  /\ List.length calls = List.length files.
Proof.
  intros Hlen calls. unfold process_images. split.
  - rewrite tag_loop_exact; [reflexivity |].
    intros i path Hin. apply in_combine_l in Hin. apply in_seq in Hin. lia.
  - unfold calls, calls_of.
    rewrite length_map, length_combine, length_seq, length_map. lia.
Qed.

Lemma tag_loop_short (paths : list string) (s : nat)
    (targets : list Coordinate) (calls : list (string * GPSTags))
    (processed : list string) :
  (s <= List.length targets < s + List.length paths)%nat ->
  tag_loop set_tags (combine (seq s (List.length paths)) paths) targets
    calls processed
  = Raise IndexError.
Proof.
  revert s calls processed.
  induction paths as [| path rest IH]; intros s calls processed [Hlo Hhi].
  - cbn in Hhi. lia.
  - cbn [List.length seq combine tag_loop].
    destruct (nth_error targets s) as [target |] eqn:En; [| reflexivity].
    apply IH. assert (s < List.length targets)%nat.
    { apply nth_error_Some. rewrite En. discriminate. }
    cbn [List.length] in Hhi. lia.
Qed.

End TagMore.

Lemma map_snd_combine {A B : Type} (l : list A) (l' : list B) :
  List.length l = List.length l' -> map snd (combine l l') = l'.
Proof.
  revert l'. induction l as [| a l IH]; intros [| b l'] H;
    try discriminate H; [reflexivity |].
  cbn. f_equal. apply IH. injection H as H. exact H.
Qed.

(** X9.  A failed [set_tags] call does not stop the batch: with a target
    for every file there is one call per file, and [processed_paths] is
    exactly the paths of the calls that succeeded, in order. *)
Theorem process_images_skips_failures
    (set_tags : string -> GPSTags -> bool) (temp_dir : string)
    (files : list UploadedFile) (targets : list Coordinate) :
  (List.length files <= List.length targets)%nat ->
  exists calls processed_paths,
    process_images set_tags temp_dir files targets = Ok (calls, processed_paths)
    /\ List.length calls = List.length files
    /\ map fst calls = map (file_path temp_dir) files
    /\ processed_paths
       = map fst (filter (fun c => set_tags (fst c) (snd c)) calls).
Proof.
  intros Hlen.
  destruct (process_images_exact set_tags temp_dir files targets Hlen)
    as [Hp Hl].
  eexists. eexists. split; [exact Hp |]. split; [exact Hl |].
  split; [| reflexivity].
  unfold calls_of. rewrite map_map. cbn [fst].
  apply map_snd_combine. rewrite length_seq, length_map. reflexivity.
Qed.

Lemma process_images_skips_failures_witness :
  exists calls,
    process_images
      (fun path _ => negb (String.eqb path "/tmp/x/b.jpg")) "/tmp/x"
      [mkFile "a.jpg" []; mkFile "b.jpg" []; mkFile "c.webp" []]
      (repeat (34.05, -118.24) 3)
    = Ok (calls, ["/tmp/x/a.jpg"; "/tmp/x/c.webp"]%string)
    /\ List.length calls = 3%nat.
Proof.
  destruct (process_images_skips_failures
              (fun path _ => negb (String.eqb path "/tmp/x/b.jpg")) "/tmp/x"
              [mkFile "a.jpg" []; mkFile "b.jpg" []; mkFile "c.webp" []]
              (repeat (34.05, -118.24) 3) (le_n 3))
    as [calls [processed [Hp [Hlen [Hpaths Hproc]]]]].
  exists calls. split; [| exact Hlen].
  rewrite Hp. f_equal. f_equal. rewrite Hproc.
  destruct calls as [| [p0 t0] [| [p1 t1] [| [p2 t2] [| c3 calls]]]];
    try discriminate Hlen.
  cbn in Hpaths. injection Hpaths as -> -> ->. reflexivity.
Defined.

(** X10.  With fewer targets than files, [process_images] raises
    [IndexError] at line 60. *)
Theorem process_images_too_few_targets
    (set_tags : string -> GPSTags -> bool) (temp_dir : string)
    (files : list UploadedFile) (targets : list Coordinate) :
  (List.length targets < List.length files)%nat ->
  process_images set_tags temp_dir files targets = Raise IndexError.
Proof.
  intros Hlen. unfold process_images.
  rewrite <- (length_map (file_path temp_dir) files).
  apply tag_loop_short. rewrite length_map. lia.
Qed.

Lemma process_images_too_few_targets_witness :
  process_images (fun _ _ => true) "/tmp/x"
    [mkFile "a.jpg" []; mkFile "b.jpg" []; mkFile "c.webp" []]
    (repeat (34.05, -118.24) 2)
  = Raise IndexError.
Proof.
  apply (process_images_too_few_targets (fun _ _ => true) "/tmp/x"
           [mkFile "a.jpg" []; mkFile "b.jpg" []; mkFile "c.webp" []]
           (repeat (34.05, -118.24) 2)).
  cbn. lia.
Defined.

(** ** The page and the tagging step together *)

Lemma pin_loop_length (rand : nat -> R) (files : list UploadedFile)
    (lat lon radius : R) (acc targets : list Coordinate) (k k' : nat) :
  pin_loop rand files lat lon radius acc k = Ok (targets, k') ->
  List.length targets = (List.length acc + List.length files)%nat.
Proof.
  revert acc k. induction files as [| f rest IH]; intros acc k H.
  - cbn in H. unfold ret in H. injection H as <- _. cbn. lia.
  - cbn [pin_loop] in H. unfold bind in H.
    destruct (get_random_point_in_radius rand lat lon radius k)
      as [[p k1] | e]; [| discriminate H].
    rewrite (IH _ _ H), length_app. cbn. lia.
Qed.

Lemma pin_mode_length (rand : nat -> R) (rnd : R -> R) (start : Coordinate)
    (last_clicked : option Coordinate) (radius : R)
    (files : list UploadedFile) (targets : list Coordinate) (k k' : nat) :
  pin_mode rand rnd start last_clicked radius files k = Ok (targets, k') ->
  List.length targets = List.length files.
Proof.
  unfold pin_mode, bind, lift. intros H.
  destruct (clicked rnd start last_clicked) as [c | e]; [| discriminate H].
  apply pin_loop_length in H. exact H.
Qed.

Lemma tagging_offered_true (files : list UploadedFile)
    (targets : list Coordinate) :
  tagging_offered files targets = true -> files <> [] /\ targets <> [].
Proof.
  unfold tagging_offered. destruct files, targets; cbn; intros H;
    try discriminate H.
  split; discriminate.
Qed.

(** X11.  Whenever a run of the page shows the tag button, there are
    between 1 and [MAX_FILES] files and exactly one target per file, so
    that the call of [process_images] on line 194 does not raise at line 60
    and makes one [set_tags] call per file. *)
Theorem tag_button_one_target_per_file
    (rand : nat -> R) (rnd : R -> R) (arcgis : string -> option Coordinate)
    (set_list : list string -> list string)
    (uploaded_files : list UploadedFile) (mode : Mode)
    (start : Coordinate) (last_clicked : option Coordinate) (radius : R)
    (city_names : list string) (k k' : nat) (page : Page)
    (set_tags : string -> GPSTags -> bool) (temp_dir : string) :
  script rand rnd arcgis set_list uploaded_files mode start last_clicked radius
    city_names k = Ok (page, k') ->
  tag_button page = true ->
  (1 <= List.length uploaded_files <= MAX_FILES)%nat
  /\ List.length (final_targets page) = List.length uploaded_files
  /\ exists calls processed_paths,
       process_images set_tags temp_dir uploaded_files (final_targets page)
       = Ok (calls, processed_paths)
       /\ List.length calls = List.length uploaded_files.
Proof.
  intros Hrun Hbutton.
  assert (Hmain :
    (1 <= List.length uploaded_files <= MAX_FILES)%nat
    /\ List.length (final_targets page) = List.length uploaded_files).
  { unfold script in Hrun.
    destruct (negb (is_empty uploaded_files)
              && (MAX_FILES <? List.length uploaded_files)%nat) eqn:Eg.
    - unfold ret in Hrun. injection Hrun as <- _. discriminate Hbutton.
    - assert (Hshape : forall targets msgs,
                page = mkPage targets msgs (tagging_offered uploaded_files targets) ->
                (targets = [] \/ List.length targets = List.length uploaded_files) ->
                (1 <= List.length uploaded_files <= MAX_FILES)%nat
                /\ List.length (final_targets page) = List.length uploaded_files).
      { intros targets msgs -> Hlen. cbn [tag_button final_targets] in *.
        destruct (tagging_offered_true _ _ Hbutton) as [Hf Ht].
        destruct Hlen as [-> | Hlen]; [contradiction |].
        split; [| exact Hlen]. split.
        - destruct uploaded_files; [contradiction | cbn; lia].
        - destruct uploaded_files; [contradiction |].
          cbn [is_empty negb andb] in Eg. apply Nat.ltb_ge in Eg. exact Eg. }
      destruct mode.
      + unfold bind, ret in Hrun.
        destruct (pin_mode rand rnd start last_clicked radius uploaded_files k)
          as [[targets k1] | e] eqn:Epin; [| discriminate Hrun].
        injection Hrun as <- _.
        apply (Hshape targets []); [reflexivity |].
        right. exact (pin_mode_length _ _ _ _ _ _ _ _ _ Epin).
      + unfold bind, lift, ret in Hrun.
        destruct (city_mode_returns arcgis set_list city_names uploaded_files)
          as [ft [msgs [Hcm [Hlen _]]]].
        rewrite Hcm in Hrun. cbn [fst snd] in Hrun. injection Hrun as <- _.
        apply (Hshape ft msgs); [reflexivity | exact Hlen]. }
  destruct Hmain as [Hcount Hlen]. split; [exact Hcount |].
  split; [exact Hlen |].
  destruct (process_images_exact set_tags temp_dir uploaded_files
              (final_targets page) ltac:(lia)) as [Hp Hl].
  eexists. eexists. split; [exact Hp | exact Hl].
Qed.

Lemma tag_button_one_target_per_file_witness :
  exists calls processed_paths,
    process_images (fun _ _ => true) "/tmp/x"
      [mkFile "a.jpg" []; mkFile "b.jpg" []; mkFile "c.webp" []]
      (repeat (34.05, -118.24) 3)
    = Ok (calls, processed_paths)
    /\ List.length calls = 3%nat.
Proof.
  assert (Hrun :
    script (fun _ => 1 / 2) (fun x => x) example_geocoder (nodup string_dec)
      [mkFile "a.jpg" []; mkFile "b.jpg" []; mkFile "c.webp" []] PinOnMap
      (34.05, -118.24) None 0 [] 0%nat
    = Ok (mkPage (repeat (34.05, -118.24) 3) [] true, 0%nat)).
  { apply (script_pin (fun _ => 1 / 2) (fun x => x) example_geocoder (nodup string_dec)
             [mkFile "a.jpg" []; mkFile "b.jpg" []; mkFile "c.webp" []]
             (34.05, -118.24) None 0 [] 0%nat 0%nat
             (repeat (34.05, -118.24) 3)).
    - cbn. unfold MAX_FILES. lia.
    - apply (pin_mode_degenerate (fun _ => 1 / 2) (fun x => x) (34.05, -118.24) None 0
               34.05 (-118.24)); [reflexivity | lra]. }
  destruct (tag_button_one_target_per_file _ _ _ _ _ _ _ _ _ _ _ _ _
              (fun _ _ => true) "/tmp/x"%string Hrun eq_refl)
    as [_ [_ Hcalls]].
  exact Hcalls.
Defined.

Lemma calls_of_repeat (temp_dir : string) (files : list UploadedFile)
    (c : Coordinate) :
  calls_of (combine (seq 0 (List.length files)) (map (file_path temp_dir) files))
    (repeat c (List.length files))
  = map (fun f => (file_path temp_dir f, gps_tags c)) files.
Proof.
  unfold calls_of.
  transitivity
    (map (fun e : nat * string => (snd e, gps_tags c))
       (combine (seq 0 (List.length files)) (map (file_path temp_dir) files))).
  - apply map_ext_in. intros [i path] Hin. cbn [fst snd].
    apply in_combine_l in Hin. apply in_seq in Hin.
    rewrite nth_repeat_lt by lia. reflexivity.
  - rewrite <- (map_map snd (fun path => (path, gps_tags c))).
    rewrite map_snd_combine by (rewrite length_seq, length_map; reflexivity).
    rewrite map_map. reflexivity.
Qed.

(** X12.  Pin mode with the slider at its default (radius 0, or any
    radius [<= 0]), between 1 and [MAX_FILES] files: the page holds one
    copy of the centre per file and shows the button, no random draw is
    made, and [process_images] passes the same tags, those of the centre,
    for every file.  Without a click the centre is the start location,
    and when the IP lookup raised or gave nothing that is
    (34.0522, -118.2437), written as 34.0522 N, 118.2437 W. *)
Theorem pin_run_without_radius
    (rand : nat -> R) (rnd : R -> R) (arcgis : string -> option Coordinate)
    (set_list : list string -> list string)
    (uploaded_files : list UploadedFile)
    (ip_me : option (option Coordinate)) (last_clicked : option Coordinate)
    (radius : R) (city_names : list string) (k : nat) (c : Coordinate)
    (set_tags : string -> GPSTags -> bool) (temp_dir : string) :
  uploaded_files <> [] ->
  (List.length uploaded_files <= MAX_FILES)%nat ->
  radius <= 0 ->
  clicked rnd (get_current_location ip_me) last_clicked = Ok c ->
  script rand rnd arcgis set_list uploaded_files PinOnMap
    (get_current_location ip_me) last_clicked radius city_names k
  = Ok (mkPage (repeat c (List.length uploaded_files)) [] true, k)
  /\ (exists processed_paths,
        process_images set_tags temp_dir uploaded_files
          (repeat c (List.length uploaded_files))
        = Ok (map (fun f => (file_path temp_dir f, gps_tags c)) uploaded_files,
              processed_paths))
  /\ (last_clicked = None -> ip_me = None \/ ip_me = Some None ->
      c = (34.0522, -118.2437)
      /\ gps_tags c = mkTags 34.0522 "N" 118.2437 "W").
Proof.
  intros Hf Hfew Hr Hc. destruct c as [lat lon]. split; [| split].
  - rewrite (script_pin rand rnd arcgis set_list uploaded_files _ last_clicked
               radius city_names k k (repeat (lat, lon) (List.length uploaded_files))
               Hfew).
    + do 3 f_equal. unfold tagging_offered.
      destruct uploaded_files; [contradiction | reflexivity].
    + apply pin_mode_degenerate; assumption.
  - destruct (process_images_exact set_tags temp_dir uploaded_files
                (repeat (lat, lon) (List.length uploaded_files)))
      as [Hp _].
    { rewrite repeat_length. lia. }
    rewrite calls_of_repeat in Hp. eexists. exact Hp.
  - intros -> Hip. cbn [clicked] in Hc.
    assert (Hla : (lat, lon) = (34.0522, -118.2437)).
    { destruct Hip as [-> | ->]; cbn in Hc; injection Hc as <- <-; reflexivity. }
    split; [exact Hla |]. rewrite Hla. unfold gps_tags.
    destruct (Rge_dec 34.0522 0) as [_ | H]; [| exfalso; lra].
    destruct (Rge_dec (-118.2437) 0) as [H | _]; [exfalso; lra |].
    rewrite (Rabs_right 34.0522) by lra.
    rewrite (Rabs_left (-118.2437)) by lra.
    f_equal. lra.
Qed.

Lemma pin_run_without_radius_witness :
  script (fun _ => 1 / 2) (fun x => x) example_geocoder (nodup string_dec)
    five_files PinOnMap (get_current_location None) None 0 [] 0%nat
  = Ok (mkPage (repeat (34.0522, -118.2437) 5) [] true, 0%nat)
  /\ gps_tags (34.0522, -118.2437) = mkTags 34.0522 "N" 118.2437 "W".
Proof.
  assert (Hfew : (List.length five_files <= MAX_FILES)%nat)
    by (cbn; unfold MAX_FILES; lia).
  assert (Hr : 0 <= 0) by lra.
  destruct (pin_run_without_radius (fun _ => 1 / 2) (fun x => x) example_geocoder
              (nodup string_dec) five_files None None 0 [] 0%nat
              (34.0522, -118.2437) (fun _ _ => true) "/tmp/x"%string
              ltac:(discriminate) Hfew Hr eq_refl)
    as [Hrun [_ Hla]].
  split; [exact Hrun |].
  exact (proj2 (Hla eq_refl (or_introl eq_refl))).
Defined.

(** ** Reading the names *)

Example parse_cities_default :
  parse_cities "Monterey Park CA, Arcadia CA, Pasadena CA"
  = ["Monterey Park CA"; "Arcadia CA"; "Pasadena CA"]%string.
Proof. reflexivity. Qed.

Lemma lstrip_length (s : string) :
  lstrip s = s \/ (String.length (lstrip s) < String.length s)%nat.
Proof.
  induction s as [| c rest IH]; [left; reflexivity |].
  cbn. destruct (isspace c); [| left; reflexivity].
  right. destruct IH as [-> | IH]; lia.
Qed.

Lemma rstrip_length (s : string) :
  (String.length (rstrip s) <= String.length s)%nat.
Proof.
  induction s as [| c rest IH]; [cbn; lia |].
  cbn. destruct (rstrip rest) as [| c' kept].
  - destruct (isspace c); cbn; lia.
  - cbn in *. lia.
Qed.

Lemma lstrip_head (s : string) :
  match lstrip s with
  | EmptyString => True
  | String c _ => isspace c = false
  end.
Proof.
  induction s as [| c rest IH]; [exact I |].
  cbn. destruct (isspace c) eqn:Ec; [exact IH | exact Ec].
Qed.

Lemma rstrip_keeps_head (c : ascii) (rest : string) :
  isspace c = false -> exists kept, rstrip (String c rest) = String c kept.
Proof.
  intros Hc. cbn. destruct (rstrip rest); rewrite ?Hc; eauto.
Qed.

Lemma rstrip_idem (s : string) : rstrip (rstrip s) = rstrip s.
Proof.
  induction s as [| c rest IH]; [reflexivity |].
  cbn. destruct (rstrip rest) as [| c' kept] eqn:E.
  - destruct (isspace c) eqn:Ec; [reflexivity |]. cbn. rewrite Ec. reflexivity.
  - cbn [rstrip]. cbn [rstrip] in IH. rewrite IH. reflexivity.
Qed.

Lemma strip_idem (s : string) : strip (strip s) = strip s.
Proof.
  unfold strip. pose proof (lstrip_head s) as Hhead.
  destruct (lstrip s) as [| c rest]; [reflexivity |].
  destruct (rstrip_keeps_head c rest Hhead) as [kept Hk].
  rewrite Hk. cbn [lstrip]. rewrite Hhead, <- Hk. apply rstrip_idem.
Qed.

Lemma strip_fixed (s : string) : strip s = s -> lstrip s = s /\ rstrip s = s.
Proof.
  intros H. assert (Hl : lstrip s = s).
  { destruct (lstrip_length s) as [Hl | Hl]; [exact Hl |].
    pose proof (rstrip_length (lstrip s)) as Hr. unfold strip in H.
    rewrite H in Hr. lia. }
  split; [exact Hl |]. unfold strip in H. rewrite Hl in H. exact H.
Qed.

Lemma has_char_lstrip (c : ascii) (s : string) :
  has_char c s = false -> has_char c (lstrip s) = false.
Proof.
  induction s as [| c' rest IH]; [reflexivity |].
  cbn. intros H. apply orb_false_iff in H. destruct H as [H1 H2].
  destruct (isspace c'); [apply IH; exact H2 |].
  cbn. rewrite H1, H2. reflexivity.
Qed.

Lemma has_char_rstrip (c : ascii) (s : string) :
  has_char c s = false -> has_char c (rstrip s) = false.
Proof.
  induction s as [| c' rest IH]; [reflexivity |].
  cbn. intros H. apply orb_false_iff in H. destruct H as [H1 H2].
  specialize (IH H2). destruct (rstrip rest) as [| c'' kept].
  - destruct (isspace c'); [reflexivity |]. cbn. rewrite H1. reflexivity.
  - cbn [has_char] in *. rewrite H1. exact IH.
Qed.

Lemma split_char_nonempty (sep : ascii) (s : string) : split_char sep s <> [].
Proof.
  destruct s as [| c rest]; cbn; [discriminate |].
  destruct (Ascii.eqb c sep); [discriminate |].
  destruct (split_char sep rest); discriminate.
Qed.

Lemma split_char_pieces (sep c : ascii) (s piece : string) :
  In piece (split_char sep s) ->
  has_char sep piece = false
  /\ (has_char c s = false -> has_char c piece = false).
Proof.
  revert piece. induction s as [| c' rest IH]; intros piece Hin.
  - destruct Hin as [<- | []]. split; reflexivity.
  - cbn [split_char] in Hin. destruct (Ascii.eqb c' sep) eqn:Esep.
    + destruct Hin as [<- | Hin]; [split; reflexivity |].
      destruct (IH piece Hin) as [H1 H2]. split; [exact H1 |].
      cbn. intros H. apply orb_false_iff in H. apply H2. apply H.
    + destruct (split_char sep rest) as [| p ps] eqn:Es.
      * destruct Hin as [<- | []]. cbn. rewrite Esep. split; [reflexivity |].
        intros H. apply orb_false_iff in H. destruct H as [-> _]. reflexivity.
      * destruct Hin as [<- | Hin].
        -- destruct (IH p (or_introl eq_refl)) as [H1 H2]. cbn.
           rewrite Esep, H1. split; [reflexivity |].
           intros H. apply orb_false_iff in H. destruct H as [-> H].
           apply H2. exact H.
        -- destruct (IH piece (or_intror Hin)) as [H1 H2].
           split; [exact H1 |]. cbn. intros H. apply orb_false_iff in H.
           apply H2. apply H.
Qed.

Lemma has_char_replace (old new : ascii) (s : string) :
  old <> new -> has_char old (replace_char old new s) = false.
Proof.
  intros Hne. induction s as [| c rest IH]; [reflexivity |].
  cbn. rewrite IH, orb_false_r. destruct (Ascii.eqb c old) eqn:E; [| exact E].
  apply Ascii.eqb_neq. intros H. apply Hne. symmetry. exact H.
Qed.

(** X13.  Every name read from the text area is non-empty, has no
    white space at either end, and contains neither a comma nor a line
    feed. *)
Theorem parse_cities_names_clean (city_input name : string) :
  In name (parse_cities city_input) ->
  name <> EmptyString
  /\ strip name = name
  /\ has_char comma name = false
  /\ has_char newline name = false.
Proof.
  unfold parse_cities. intros Hin. apply in_flat_map in Hin.
  destruct Hin as [piece [Hpiece Hname]].
  destruct (split_char_pieces comma newline _ _ Hpiece) as [Hcomma Hnl].
  specialize (Hnl (has_char_replace newline comma city_input ltac:(discriminate))).
  assert (Hs : name = strip piece /\ name <> EmptyString).
  { destruct (strip piece) as [| c kept]; [destruct Hname |].
    destruct Hname as [<- | []]. split; [reflexivity | discriminate]. }
  destruct Hs as [-> Hne]. split; [exact Hne |].
  split; [apply strip_idem |].
  unfold strip. split; apply has_char_rstrip, has_char_lstrip; assumption.
Qed.

Lemma parse_cities_names_clean_witness :
  strip "Arcadia CA" = "Arcadia CA"%string
  /\ has_char comma "Arcadia CA" = false
  /\ has_char newline "Arcadia CA" = false.
Proof.
  assert (Hin : In "Arcadia CA"%string
                  (parse_cities "Monterey Park CA,, Arcadia CA
  Pasadena CA ,"))
    by (right; left; reflexivity).
  exact (proj2 (parse_cities_names_clean _ _ Hin)).
Defined.

Lemma replace_char_app (old new : ascii) (a b : string) :
  replace_char old new (a ++ b)
  = (replace_char old new a ++ replace_char old new b)%string.
Proof.
  induction a as [| c rest IH]; [reflexivity |]. cbn. rewrite IH. reflexivity.
Qed.

Lemma replace_char_absent (old new : ascii) (s : string) :
  has_char old s = false -> replace_char old new s = s.
Proof.
  induction s as [| c rest IH]; [reflexivity |].
  cbn. intros H. apply orb_false_iff in H. destruct H as [-> H].
  rewrite (IH H). reflexivity.
Qed.

Lemma split_char_app (sep : ascii) (a b : string) :
  has_char sep a = false ->
  split_char sep (a ++ String sep b) = a :: split_char sep b.
Proof.
  induction a as [| c rest IH]; intros H.
  - cbn. rewrite Ascii.eqb_refl. reflexivity.
  - cbn in H. apply orb_false_iff in H. destruct H as [Hc H].
    cbn. rewrite Hc, (IH H). reflexivity.
Qed.

Lemma split_char_absent (sep : ascii) (a : string) :
  has_char sep a = false -> split_char sep a = [a].
Proof.
  induction a as [| c rest IH]; intros H; [reflexivity |].
  cbn in H. apply orb_false_iff in H. destruct H as [Hc H].
  cbn. rewrite Hc, (IH H). reflexivity.
Qed.

Section CleanName.

Variable n : string.
Hypothesis n_nonempty : n <> EmptyString.
Hypothesis n_stripped : strip n = n.
Hypothesis n_no_comma : has_char comma n = false.
Hypothesis n_no_newline : has_char newline n = false.

Lemma parse_cities_single : parse_cities n = [n].
Proof.
  unfold parse_cities.
  rewrite (replace_char_absent _ _ _ n_no_newline).
  rewrite (split_char_absent _ _ n_no_comma). cbn [flat_map].
  rewrite n_stripped, app_nil_r. destruct n; [contradiction | reflexivity].
Qed.

Lemma parse_cities_comma (t : string) :
  parse_cities (n ++ String comma t) = n :: parse_cities t.
Proof.
  unfold parse_cities.
  rewrite replace_char_app, (replace_char_absent _ _ _ n_no_newline).
  cbn [replace_char]. change (Ascii.eqb comma newline) with false. cbv iota.
  rewrite (split_char_app _ _ _ n_no_comma). cbn [flat_map].
  rewrite n_stripped. destruct n; [contradiction | reflexivity].
Qed.

Lemma parse_cities_newline (t : string) :
  parse_cities (n ++ String newline t) = n :: parse_cities t.
Proof.
  unfold parse_cities.
  rewrite replace_char_app, (replace_char_absent _ _ _ n_no_newline).
  cbn [replace_char]. change (Ascii.eqb newline newline) with true. cbv iota.
  rewrite (split_char_app _ _ _ n_no_comma). cbn [flat_map].
  rewrite n_stripped. destruct n; [contradiction | reflexivity].
Qed.

End CleanName.

Lemma parse_cities_space (t : string) :
  parse_cities (String " " t) = parse_cities t.
Proof.
  unfold parse_cities. cbn [replace_char split_char].
  change (Ascii.eqb " " newline) with false.
  change (Ascii.eqb " " comma) with false. cbv iota.
  pose proof (split_char_nonempty comma (replace_char newline comma t)) as Hne.
  destruct (split_char comma (replace_char newline comma t)) as [| p ps];
    [contradiction |].
  reflexivity.
Qed.

(** X14.  Names that are non-empty, stripped and free of commas and line
    feeds are read back unchanged from the text that joins them with a
    comma, with a comma and a space (the form of the success message of
    line 182 and of the default text), or with a line feed. *)
Theorem parse_cities_join (names : list string) (sep : string) :
  Forall (fun n => n <> EmptyString /\ strip n = n
                   /\ has_char comma n = false
                   /\ has_char newline n = false) names ->
  sep = String comma EmptyString
  \/ sep = String comma (String " " EmptyString)
  \/ sep = String newline EmptyString ->
  parse_cities (String.concat sep names) = names.
Proof.
  intros Hclean Hsep. induction Hclean as [| n rest [Hne [Hs [Hc Hn]]] Hrest IH].
  - reflexivity.
  - cbn [String.concat]. destruct rest as [| m rest'].
    + apply parse_cities_single; assumption.
    + destruct Hsep as [-> | [-> | ->]].
      * cbn [append]. rewrite parse_cities_comma by assumption.
        f_equal. apply IH.
      * cbn [append]. rewrite parse_cities_comma by assumption.
        rewrite parse_cities_space. f_equal. apply IH.
      * cbn [append]. rewrite parse_cities_newline by assumption.
        f_equal. apply IH.
Qed.

Lemma parse_cities_join_witness :
  parse_cities
    (String.concat ", " ["Sao Paulo"; "Arcadia CA"; "Sao Paulo"]%string)
  = ["Sao Paulo"; "Arcadia CA"; "Sao Paulo"]%string.
Proof.
  apply parse_cities_join.
  - repeat constructor; discriminate.
  - right. left. reflexivity.
Defined.

Lemma only_lstrip (s : string) : only isspace (lstrip s) = only isspace s.
Proof.
  induction s as [| c rest IH]; [reflexivity |].
  cbn. destruct (isspace c) eqn:Ec; [exact IH |]. cbn. rewrite Ec. reflexivity.
Qed.

Lemma rstrip_empty (s : string) :
  rstrip s = EmptyString <-> only isspace s = true.
Proof.
  induction s as [| c rest IH]; [split; reflexivity |].
  cbn. destruct (rstrip rest) as [| c' kept].
  - destruct (isspace c); cbn.
    + split; [intros _; apply IH; reflexivity | reflexivity].
    + split; discriminate.
  - split; [discriminate |]. intros H. apply andb_true_iff in H.
    destruct H as [_ H]. apply IH in H. discriminate H.
Qed.

Lemma strip_empty (s : string) :
  strip s = EmptyString <-> only isspace s = true.
Proof.
  unfold strip. rewrite rstrip_empty, only_lstrip. reflexivity.
Qed.

Lemma only_split (P : ascii -> bool) (sep : ascii) (s : string) :
  P sep = true -> only P s = forallb (only P) (split_char sep s).
Proof.
  intros Hsep. induction s as [| c rest IH]; [reflexivity |].
  cbn [only split_char]. destruct (Ascii.eqb c sep) eqn:Ec.
  - apply Ascii.eqb_eq in Ec. subst c. rewrite Hsep. cbn. exact IH.
  - pose proof (split_char_nonempty sep rest) as Hne.
    destruct (split_char sep rest) as [| p ps]; [contradiction |].
    cbn [forallb only] in *. rewrite IH, andb_assoc. reflexivity.
Qed.

Lemma only_replace (P : ascii -> bool) (old new : ascii) (s : string) :
  P old = P new -> only P (replace_char old new s) = only P s.
Proof.
  intros HP. induction s as [| c rest IH]; [reflexivity |].
  cbn. rewrite IH. destruct (Ascii.eqb c old) eqn:Ec; [| reflexivity].
  apply Ascii.eqb_eq in Ec. subst c. rewrite HP. reflexivity.
Qed.

Lemma only_blank_no_comma (s : string) :
  has_char comma s = false -> only is_blank s = only isspace s.
Proof.
  induction s as [| c rest IH]; [reflexivity |].
  cbn. intros H. apply orb_false_iff in H. destruct H as [Hc H].
  rewrite (IH H). unfold is_blank. rewrite Hc, orb_false_r. reflexivity.
Qed.

Lemma flat_map_nil {A B : Type} (f : A -> list B) (l : list A) :
  flat_map f l = [] <-> forall x, In x l -> f x = [].
Proof.
  induction l as [| a l IH]; cbn.
  - split; [intros _ x [] | reflexivity].
  - split.
    + intros H. apply app_eq_nil in H. destruct H as [Ha Hl].
      intros x [<- | Hin]; [exact Ha | apply IH; assumption].
    + intros H. rewrite (H a (or_introl eq_refl)).
      apply IH. intros x Hin. apply H. right. exact Hin.
Qed.

(** X15.  No name at all is read exactly when the text consists of white
    space and commas only (the empty text included); then, with a file
    uploaded, city mode stops at the warning of line 153 without any
    lookup and without targets. *)
Theorem parse_cities_blank
    (arcgis : string -> option Coordinate)
    (set_list : list string -> list string)
    (city_input : string) (uploaded_files : list UploadedFile) :
  (parse_cities city_input = [] <-> only is_blank city_input = true)
  /\ (only is_blank city_input = true -> uploaded_files <> [] ->
      city_mode arcgis set_list (parse_cities city_input) uploaded_files
      = Ok ([], [st_warning no_cities_msg])).
Proof.
  assert (Hiff : parse_cities city_input = [] <-> only is_blank city_input = true).
  { unfold parse_cities. rewrite flat_map_nil.
    rewrite <- (only_replace is_blank newline comma city_input eq_refl).
    rewrite (only_split is_blank comma _ eq_refl), forallb_forall.
    split; intros H piece Hin.
    - destruct (split_char_pieces comma comma _ _ Hin) as [Hc _].
      rewrite (only_blank_no_comma _ Hc). apply strip_empty.
      specialize (H piece Hin). destruct (strip piece); [reflexivity | discriminate H].
    - destruct (split_char_pieces comma comma _ _ Hin) as [Hc _].
      specialize (H piece Hin). rewrite (only_blank_no_comma _ Hc) in H.
      apply strip_empty in H. rewrite H. reflexivity. }
  split; [exact Hiff |].
  intros Hblank Hf. apply Hiff in Hblank. rewrite Hblank.
  destruct uploaded_files; [contradiction | reflexivity].
Qed.

Lemma parse_cities_blank_witness :
  city_mode example_geocoder (nodup string_dec) (parse_cities " , ,, ")
    five_files
  = Ok ([], [st_warning no_cities_msg]).
Proof.
  apply (proj2 (parse_cities_blank example_geocoder (nodup string_dec)
                  " , ,, " five_files)).
  - reflexivity.
  - discriminate.
Defined.

(** ** The archive *)




